(** * idpos_visualizer: synthetic retail data generator and warehouse loader

    A shallow embedding of [src/data/demo_data_gen.py] and
    [src/ingestion/load_data.py].  Python statements are written in a small
    state-and-exception monad; the libraries the scripts call (numpy's
    global random state, pandas, the warehouse connector, the process
    environment) are interfaces whose operations are state transformers. *)

From Stdlib Require Import ZArith QArith Qround Lia Lqa.
From stdpp Require Import base tactics option list strings gmap pretty.

Local Open Scope string_scope.
Local Open Scope list_scope.
Local Open Scope Z_scope.

(** ** Python exceptions and the statement monad *)

(** A raised exception: whether its class derives from [Exception] (what a
    clause [except Exception] catches; [KeyboardInterrupt] and [SystemExit]
    do not), and [str(e)]. *)
Record py_exn := PyExn {
  is_Exception : bool;
  description : string
}.

Inductive outcome (A : Type) : Type :=
| Ok (a : A)
| Raise (e : py_exn).
Arguments Ok {A} a.
Arguments Raise {A} e.

(** A statement over a store [S]: it ends normally with a value or raises,
    and in both cases leaves a store behind. *)
Definition Py (S A : Type) : Type := S → outcome A * S.

Definition py_ret {S A} (a : A) : Py S A := λ s, (Ok a, s).

Definition py_bind {S A B} (m : Py S A) (k : A → Py S B) : Py S B :=
  λ s, match m s with
       | (Ok a, s') => k a s'
       | (Raise e, s') => (Raise e, s')
       end.

Definition py_raise {S A} (e : py_exn) : Py S A := λ s, (Raise e, s).

Definition py_get {S} : Py S S := λ s, (Ok s, s).

Definition py_modify {S} (f : S → S) : Py S unit := λ s, (Ok tt, f s).

#[export] Instance Py_ret {S} : MRet (Py S) := @py_ret S.
#[export] Instance Py_bind {S} : MBind (Py S) := λ A B k m, py_bind m k.

(** [try: body  except Exception as e: handler e]. *)
Definition try_except {S A} (body : Py S A) (handler : py_exn → Py S A) : Py S A :=
  λ s, match body s with
       | (Ok a, s') => (Ok a, s')
       | (Raise e, s') =>
           if is_Exception e then handler e s' else (Raise e, s')
       end.

(** [try: body  finally: final].  The final block runs on every exit of the
    body; an exception of the body is re-raised after it, unless the final
    block raises one of its own. *)
Definition try_finally {S A} (body : Py S A) (final : Py S unit) : Py S A :=
  λ s, match body s with
       | (r, s') =>
           match final s' with
           | (Ok _, s'') => (r, s'')
           | (Raise e, s'') => (Raise e, s'')
           end
       end.

(** [for x in xs: ys.append(body x)], from an empty [ys]. *)
Fixpoint for_append {S A B} (xs : list A) (body : A → Py S B) : Py S (list B) :=
  match xs with
  | [] => mret []
  | x :: xs' => y ← body x; ys ← for_append xs' body; mret (y :: ys)
  end.

(** [m] ends normally from every store, with a value that satisfies [P]. *)
Definition ensures {S A} (m : Py S A) (P : A → Prop) : Prop :=
  ∀ s, ∃ a s', m s = (Ok a, s') ∧ P a.

(** ** The warehouse loader, [src/ingestion/load_data.py] *)

Module Loader.

(** Keyword arguments of [snowflake.connector.connect]. *)
Record credentials := Credentials {
  user : option string;
  password : option string;
  account : option string;
  warehouse : option string;
  database : option string;
  schema : string
}.

(** What the loader calls and does not define: the process environment, the
    connector, pandas.  [world] is everything outside the script. *)
Class Env := {
  world : Type;
  connection : Type;
  DataFrame : Type;
  load_dotenv : world → world;
  getenv : string → world → option string;
  connect : credentials → world → outcome connection * world;
  read_csv : string → world → outcome DataFrame * world;
  (** [write_pandas conn df table_name auto_create_table overwrite] gives
      [(success, nchunks, nrows, _)]; the fourth component is discarded by
      the caller. *)
  write_pandas : connection → DataFrame → string → bool → bool →
                 world → outcome (bool * Z * Z) * world;
  close : connection → world → world
}.

Section WithEnv.
Context {E : Env}.

(** What a run does that can be seen from outside, in order. *)
Inductive event : Type :=
| Connected (c : connection)
| Printed (line : string)
| ReadCsv (file_path : string)
| WritePandas (c : connection) (table_name : string)
| Closed (c : connection).

Record state := State {
  the_world : world;
  trace : list event
}.

Definition emit (ev : event) : Py state unit :=
  py_modify (λ s, State (the_world s) (trace s ++ [ev])).

(** A library call: the world moves, the result or exception comes back. *)
Definition call {A} (f : world → outcome A * world) : Py state A :=
  λ s, let '(r, w) := f (the_world s) in (r, State w (trace s)).

Definition print (line : string) : Py state unit := emit (Printed line).

Definition os_getenv (name : string) : Py state (option string) :=
  λ s, (Ok (getenv name (the_world s)), s).

Definition get_snowflake_connection : Py state connection :=
  u ← os_getenv "SNOWFLAKE_USER";
  p ← os_getenv "SNOWFLAKE_PASSWORD";
  a ← os_getenv "SNOWFLAKE_ACCOUNT";
  w ← os_getenv "SNOWFLAKE_WAREHOUSE";
  d ← os_getenv "SNOWFLAKE_DATABASE";
  c ← call (connect (Credentials u p a w d "RAW"));
  emit (Connected c);;
  mret c.

Definition starting_message (file_path table_name : string) : string :=
  "Starting ingestion for: " +:+ file_path +:+ " into table " +:+ table_name.

Definition success_message (nrows : Z) (table_name : string) : string :=
  "Successfully ingested " +:+ pretty nrows +:+ " rows into " +:+ table_name.

Definition error_message (e : py_exn) : string :=
  "Error during ingestion: " +:+ description e.

Definition load_csv_to_snowflake (file_path table_name : string) : Py state unit :=
  conn ← get_snowflake_connection;
  try_finally
    (try_except
       (print (starting_message file_path table_name);;
        emit (ReadCsv file_path);;
        df ← call (read_csv file_path);
        emit (WritePandas conn table_name);;
        '(success, nchunks, nrows) ← call (write_pandas conn df table_name true true);
        if success : bool then print (success_message nrows table_name) else mret tt)
       (λ e, print (error_message e)))
    (emit (Closed conn);; call (λ w, (Ok tt, close conn w))).

Definition main : Py state unit :=
  load_csv_to_snowflake "./data/transaction_data.csv" "TRANSACTIONS";;
  load_csv_to_snowflake "./data/product.csv" "PRODUCTS";;
  load_csv_to_snowflake "./data/hh_demographic.csv" "DEMOGRAPHICS".

(** The module as a script: [load_dotenv()] at import, then the entry point. *)
Definition script : Py state unit :=
  call (λ w, (Ok tt, load_dotenv w));;
  main.

Definition run (w : world) : outcome unit * state := script (State w []).

Definition printed (tr : list event) : list string :=
  omap (λ ev, match ev with Printed l => Some l | _ => None end) tr.

Definition is_success_message (line : string) : bool :=
  String.prefix "Successfully ingested " line.

Definition is_error_message (line : string) : bool :=
  String.prefix "Error during ingestion: " line.

End WithEnv.

Arguments starting_message : simpl never.
Arguments success_message : simpl never.
Arguments error_message : simpl never.

End Loader.

(** ** The synthetic dataset generator, [src/data/demo_data_gen.py] *)

Module Generator.

(** *** Floating-point numbers

    A Python [float] is modelled by the rational it denotes; [fl] rounds a
    real result to the binary64 number that represents it. *)
Class Float := {
  fl : Q → Q
}.

(** What the proofs use of binary64 rounding: it is monotone, and it leaves
    a dyadic number with a significand of at most 53 bits unchanged. *)
Record float_contract (F : Float) : Prop := {
  fl_monotone : ∀ x y : Q, (x <= y)%Q → (fl x <= fl y)%Q;
  fl_exact : ∀ (m : Z) (k : nat),
    Z.abs m ≤ 2 ^ 53 → (k ≤ 1074)%nat →
    (fl (inject_Z m / inject_Z (2 ^ Z.of_nat k))
     == inject_Z m / inject_Z (2 ^ Z.of_nat k))%Q
}.

Section Floats.
Context {F : Float}.

(** A literal such as [1.5] or [0.1] in the source text. *)
Definition float_literal (q : Q) : Q := fl q.

(** [float(n)] for an [int], as applied implicitly in [x * n]. *)
Definition float_of_int (n : Z) : Q := fl (inject_Z n).

Definition float_mul (x y : Q) : Q := fl (x * y).

Definition float_div (x y : Q) : Q := fl (x / y).

(** Nearest integer, ties to the even one. *)
Definition round_half_even (x : Q) : Z :=
  let f := Qfloor x in
  match (x - inject_Z f ?= 1 # 2)%Q with
  | Lt => f
  | Gt => f + 1
  | Eq => if Z.even f then f else f + 1
  end.

(** [round(x, ndigits)] on a float, for [ndigits >= 0]: the decimal with
    [ndigits] places nearest to the exact value of [x], as a float. *)
Definition py_round (x : Q) (ndigits : nat) : Q :=
  let scale := inject_Z (10 ^ Z.of_nat ndigits) in
  fl (inject_Z (round_half_even (x * scale)) / scale).

Definition float_lt (x y : Q) : bool :=
  match (x ?= y)%Q with Lt => true | _ => false end.

Definition float_gt (x y : Q) : bool := float_lt y x.

End Floats.

(** *** Strings *)

(** [needle in haystack]. *)
Fixpoint str_in (needle haystack : string) : bool :=
  String.prefix needle haystack
  || match haystack with
     | EmptyString => false
     | String _ rest => str_in needle rest
     end.

(** A non-negative number in decimal, padded with zeros on the left to at
    least [width] characters ([%m], [%d] and [%Y] of [strftime]). *)
Fixpoint zero_fill (width : nat) (s : string) : string :=
  match width with
  | O => s
  | S w => if decide (String.length s < S w)%nat then zero_fill w ("0" +:+ s) else s
  end.

Definition zero_padded (width : nat) (n : Z) : string :=
  zero_fill width (pretty n).

(** *** Dates: [datetime.datetime], [datetime.timedelta]

    Only the date part is used by the script; the algorithms are those of
    the proleptic Gregorian ordinal. *)
Record datetime := Datetime {
  year : Z;
  month : Z;
  day : Z
}.

Definition is_leap (y : Z) : bool :=
  (y mod 4 =? 0) && (negb (y mod 100 =? 0) || (y mod 400 =? 0)).

Definition days_before_year (y : Z) : Z :=
  let y := y - 1 in y * 365 + y / 4 - y / 100 + y / 400.

Definition days_in_month (y m : Z) : Z :=
  if (m =? 2) && is_leap y then 29
  else nth (Z.to_nat m) [0; 31; 28; 31; 30; 31; 30; 31; 31; 30; 31; 30; 31] 0.

Definition days_before_month (y m : Z) : Z :=
  nth (Z.to_nat m) [0; 0; 31; 59; 90; 120; 151; 181; 212; 243; 273; 304; 334] 0
  + (if (2 <? m) && is_leap y then 1 else 0).

Definition toordinal (d : datetime) : Z :=
  days_before_year (year d) + days_before_month (year d) (month d) + day d.

Definition fromordinal (n : Z) : datetime :=
  let n := n - 1 in
  let n400 := n / 146097 in
  let n := n mod 146097 in
  let n100 := n / 36524 in
  let n := n mod 36524 in
  let n4 := n / 1461 in
  let n := n mod 1461 in
  let n1 := n / 365 in
  let n := n mod 365 in
  let y := n400 * 400 + 1 + n100 * 100 + n4 * 4 + n1 in
  if (n1 =? 4) || (n100 =? 4) then Datetime (y - 1) 12 31
  else
    let leapyear := (n1 =? 3) && (negb (n4 =? 24) || (n100 =? 3)) in
    let m := Z.shiftr (n + 50) 5 in
    let preceding :=
      nth (Z.to_nat m) [0; 0; 31; 59; 90; 120; 151; 181; 212; 243; 273; 304; 334] 0
      + (if (2 <? m) && leapyear then 1 else 0) in
    let '(m, preceding) :=
      if n <? preceding
      then (m - 1,
            preceding
            - (nth (Z.to_nat (m - 1)) [0; 31; 28; 31; 30; 31; 30; 31; 31; 30; 31; 30; 31] 0
               + (if (m - 1 =? 2) && leapyear then 1 else 0)))
      else (m, preceding) in
    Datetime y m (n - preceding + 1).

(** [d + timedelta(days=n)]. *)
Definition add_days (d : datetime) (n : Z) : datetime :=
  fromordinal (toordinal d + n).

(** Monday is 0, Sunday is 6. *)
Definition weekday (d : datetime) : Z := (toordinal d + 6) mod 7.

(** [d.strftime("%Y-%m-%d")]. *)
Definition strftime_Ymd (d : datetime) : string :=
  zero_padded 4 (year d) +:+ "-" +:+ zero_padded 2 (month d)
  +:+ "-" +:+ zero_padded 2 (day d).

(** *** numpy's global random state

    [rng] is the state of the global generator.  Every sampling call maps a
    state to a sample and the next state; calls that pick from a sequence
    give the position of the pick.  [sample_position] is the draw behind
    [DataFrame.sample(1)], which pandas takes from the same global state. *)
Class Random := {
  rng : Type;
  seed : Z → rng;
  choice : nat → rng → nat * rng;
  choice_size : nat → nat → rng → list nat * rng;
  choice_size_p : nat → nat → list Q → rng → list nat * rng;
  randint : Z → Z → rng → Z * rng;
  uniform : Q → Q → rng → Q * rng;
  rand : rng → Q * rng;
  sample_position : nat → rng → nat * rng
}.

(** The documented ranges of the samples. *)
Record random_contract (R : Random) : Prop := {
  choice_range : ∀ n g, (0 < n)%nat → ((choice n g).1 < n)%nat;
  choice_size_length : ∀ n k g, (0 < n)%nat → length (choice_size n k g).1 = k;
  choice_size_range : ∀ n k g, (0 < n)%nat →
    Forall (λ i, (i < n)%nat) (choice_size n k g).1;
  choice_size_p_length : ∀ n k p g, (0 < n)%nat →
    length (choice_size_p n k p g).1 = k;
  choice_size_p_range : ∀ n k p g, (0 < n)%nat →
    Forall (λ i, (i < n)%nat) (choice_size_p n k p g).1;
  randint_range : ∀ lo hi g, lo < hi →
    lo ≤ (randint lo hi g).1 ∧ (randint lo hi g).1 < hi;
  uniform_range : ∀ lo hi g, (lo < hi)%Q →
    (lo <= (uniform lo hi g).1)%Q ∧ ((uniform lo hi g).1 < hi)%Q;
  rand_range : ∀ g, (0 <= (rand g).1)%Q ∧ ((rand g).1 < 1)%Q;
  sample_position_range : ∀ n g, (0 < n)%nat → ((sample_position n g).1 < n)%nat
}.

(** pandas' [DataFrame.to_csv(path, index=False)]: the text written for a
    table.  The layout of the text is pandas' own. *)
Class Csv (row : Type) := {
  to_csv_text : list row → string
}.

(** *** Rows of the three tables *)

Record household := Household {
  household_key : Z;
  AGE_DESC : string;
  MARITAL_STATUS_CODE : string;
  INCOME_DESC : string;
  HOMEOWNER_DESC : string;
  HH_COMP_DESC : string;
  HOUSEHOLD_SIZE_DESC : string;
  KID_CATEGORY_DESC : string
}.

Module Product.
Record t := Make {
  PRODUCT_ID : Z;
  MANUFACTURER : Z;
  DEPARTMENT : string;
  BRAND : string;
  COMMODITY_DESC : string;
  SUB_COMMODITY_DESC : string;
  CURR_SIZE_OF_PRODUCT : string
}.
End Product.

Module Transaction.
Record t := Make {
  HOUSEHOLD_KEY : Z;
  BASKET_ID : Z;
  DAY : string;
  PRODUCT_ID : Z;
  QUANTITY : Z;
  SALES_VALUE : Q;
  STORE_ID : Z;
  RETAIL_DISC : Q;
  TRANS_TIME : Z;
  WEEK_NO : Z
}.
End Transaction.

(** *** The script *)

Section Script.
Context {R : Random} {F : Float}.
Context {CsvH : Csv household} {CsvP : Csv Product.t} {CsvT : Csv Transaction.t}.

(** Everything the script reads or writes outside its own variables. *)
Record store := Store {
  random_state : rng;
  files : gmap string string;
  stdout : list string
}.

Definition ValueError (msg : string) : py_exn := PyExn true msg.
Definition KeyError (msg : string) : py_exn := PyExn true msg.
Definition IndexError (msg : string) : py_exn := PyExn true msg.

(** One call on the global random state. *)
Definition draw {A} (f : rng → A * rng) : Py store A :=
  λ s, let '(a, g) := f (random_state s) in
       (Ok a, Store g (files s) (stdout s)).

Definition np_random_seed (n : Z) : Py store unit :=
  py_modify (λ s, Store (seed n) (files s) (stdout s)).

(** [xs[i]] at a position a library call returned. *)
Definition item {A} (xs : list A) (i : nat) : Py store A :=
  match xs !! i with
  | Some x => mret x
  | None => py_raise (IndexError "index out of bounds")
  end.

(** [np.random.choice(a)]. *)
Definition np_random_choice {A} (a : list A) : Py store A :=
  match a with
  | [] => py_raise (ValueError "'a' cannot be empty unless no samples are taken")
  | _ => i ← draw (choice (length a)); item a i
  end.

(** [np.random.choice(a, size)]. *)
Definition np_random_choice_size {A} (a : list A) (size : nat) : Py store (list A) :=
  match a with
  | [] => py_raise (ValueError "'a' cannot be empty unless no samples are taken")
  | _ => picks ← draw (choice_size (length a) size); for_append picks (item a)
  end.

(** [np.random.choice(a, size, p=p)]. *)
Definition np_random_choice_size_p {A} (a : list A) (size : nat) (p : list Q)
  : Py store (list A) :=
  match a with
  | [] => py_raise (ValueError "'a' cannot be empty unless no samples are taken")
  | _ =>
      if decide (length p = length a)
      then picks ← draw (choice_size_p (length a) size p); for_append picks (item a)
      else py_raise (ValueError "'a' and 'p' must have same size")
  end.

(** [np.random.randint(low, high)]. *)
Definition np_random_randint (low high : Z) : Py store Z :=
  if decide (low < high) then draw (randint low high)
  else py_raise (ValueError "low >= high").

(** [np.random.uniform(low, high)]. *)
Definition np_random_uniform (low high : Q) : Py store Q :=
  draw (uniform low high).

(** [np.random.rand()]. *)
Definition np_random_rand : Py store Q := draw rand.

(** [df.iloc[i]] for a position [i >= 0]. *)
Definition iloc {A} (df : list A) (i : nat) : Py store A :=
  match df !! i with
  | Some row => mret row
  | None => py_raise (IndexError "single positional indexer is out-of-bounds")
  end.

(** [df.index] of a frame built without an index: [RangeIndex(len(df))]. *)
Definition index {A} (df : list A) : list nat := seq 0 (length df).

(** [df.sample(1)]: a frame of one row. *)
Definition sample_1 {A} (df : list A) : Py store (list A) :=
  match df with
  | [] => py_raise (ValueError "Cannot take a larger sample than population when 'replace=False'")
  | _ => i ← draw (sample_position (length df)); row ← item df i; mret [row]
  end.

(** [dict[key]]. *)
Definition getitem {V} (d : gmap string V) (key : string) : Py store V :=
  match d !! key with
  | Some v => mret v
  | None => py_raise (KeyError key)
  end.

Definition print (line : string) : Py store unit :=
  py_modify (λ s, Store (random_state s) (files s) (stdout s ++ [line])).

(** [df.to_csv(path, index=False)]. *)
Definition to_csv {row} `{Csv row} (df : list row) (path : string) : Py store unit :=
  py_modify (λ s, Store (random_state s) (<[path := to_csv_text df]> (files s)) (stdout s)).

(** **** 1. hh_demographic.csv (100 households) *)

Definition households : list Z := seqZ 1 100.

Definition age_groups : list string :=
  ["19-24"; "25-34"; "35-44"; "45-54"; "55-64"; "65+"].

Definition income_groups : list string :=
  ["Under 15K"; "15-24K"; "25-34K"; "35-49K"; "50-74K"; "75-99K"; "100-124K";
   "150-174K"; "250K+"].

Definition hh_comp : list string :=
  ["1 Adult Kids"; "2 Adults Kids"; "2 Adults No Kids"; "Single Female";
   "Single Male"].

Definition hh_sizes : list string := ["1"; "2"; "3"; "4"; "5+"].

Definition income_weights : list Q :=
  [1 # 10; 1 # 10; 1 # 10; 2 # 10; 2 # 10; 1 # 10; 1 # 10; 5 # 100; 5 # 100]%Q.

(** [pd.DataFrame({...})] from the eight columns: one row per position, and
    an error unless the columns are equally long. *)
Definition DataFrame_of_columns
  (key : list Z) (age marital income homeowner comp size kid : list string)
  : Py store (list household) :=
  if decide (Forall (λ n, n = length key)
               [length age; length marital; length income; length homeowner;
                length comp; length size; length kid])
  then
    for_append (seq 0 (length key)) (λ i,
      k ← item key i; a ← item age i; m ← item marital i; n ← item income i;
      h ← item homeowner i; c ← item comp i; z ← item size i; d ← item kid i;
      mret (Household k a m n h c z d))
  else py_raise (ValueError "All arrays must be of the same length").

Definition make_demo_df : Py store (list household) :=
  age ← np_random_choice_size age_groups 100;
  marital ← np_random_choice_size ["A"; "B"; "U"] 100;
  income ← np_random_choice_size_p income_groups 100 income_weights;
  homeowner ← np_random_choice_size ["Homeowner"; "Renter"; "Unknown"] 100;
  comp ← np_random_choice_size hh_comp 100;
  size ← np_random_choice_size hh_sizes 100;
  kid ← np_random_choice_size ["None/Unknown"; "1"; "2"; "3+"] 100;
  DataFrame_of_columns households age marital income homeowner comp size kid.

(** **** 2. product.csv (50 products) *)

Definition departments : list string :=
  ["GROCERY"; "DRUG GM"; "PRODUCE"; "MEAT-PCKGD"; "PASTRY"; "SEAFOOD-PCKGD"].

Definition commodities : gmap string (list string) :=
  list_to_map
    [("GROCERY", ["SOFT DRINKS"; "CHEESE"; "COOKIES/CONES"; "BAKED BREAD/BUNS/ROLLS"]);
     ("DRUG GM", ["VITAMINS"; "CIGARETTES"; "DIAPERS & DISPOSABLES"]);
     ("PRODUCE", ["POTATOES"; "SALAD MIX"; "FRUIT - SHELF STABLE"]);
     ("MEAT-PCKGD", ["DINNER SAUSAGE"; "LUNCHMEAT"]);
     ("PASTRY", ["BREAD"; "CAKES"]);
     ("SEAFOOD-PCKGD", ["SEAFOOD - FROZEN"])].

(** The body of [for i in range(1, 51)]: the dict appended to [products]. *)
Definition product_body (i : Z) : Py store Product.t :=
  dept ← np_random_choice departments;
  valid ← getitem commodities dept;
  comm ← np_random_choice valid;
  manufacturer ← np_random_randint 1 100;
  brand ← np_random_choice ["National"; "Private"];
  size ← np_random_randint 5 50;
  mret (Product.Make (1000 + i) manufacturer dept brand comm ("SUB_" +:+ comm)
          (pretty size +:+ " OZ")).

Definition make_product_df : Py store (list Product.t) :=
  for_append (seqZ 1 50) product_body.

(** **** 3. transaction_data.csv (2000 transactions) *)

Definition start_date : datetime := Datetime 2021 1 1.

(** The local variables of one iteration of the transaction loop, as they
    stand when the row is appended. *)
Record locals := Locals {
  hh : household;
  prod : Product.t;
  days_offset : Z;
  trans_date : datetime;
  is_weekend : bool;
  income_val : nat;
  base_price : Q;
  qty : Z;
  sales_value : Q
}.

(** The body of [for i in range(2000)].  It gives the appended row, and with
    it the iteration's local variables, which the row alone does not show. *)
Definition transaction_body
  (demo_df : list household) (product_df : list Product.t) (i : Z)
  : Py store (locals * Transaction.t) :=
  hh_idx ← np_random_choice (index demo_df);
  hh ← iloc demo_df hh_idx;
  sampled ← sample_1 product_df;
  prod ← iloc sampled 0;
  days_offset ← np_random_randint 0 365;
  let trans_date := add_days start_date days_offset in
  let is_weekend := bool_decide (5 ≤ weekday trans_date) in
  let income_val := String.length (INCOME_DESC hh) in
  base_price ← np_random_uniform (float_literal 1) (float_literal 10);
  let base_price :=
    if str_in "100" (INCOME_DESC hh) || str_in "250" (INCOME_DESC hh)
    then float_mul base_price (float_literal (15 # 10))
    else base_price in
  qty ← np_random_randint 1 3;
  qty ← (if decide (KID_CATEGORY_DESC hh ≠ "None/Unknown")
         then extra ← np_random_randint 1 3; mret (qty + extra)
         else mret qty);
  qty ← (if is_weekend
         then r ← np_random_rand;
              if float_lt r (float_literal (2 # 10)) then mret (qty + 1) else mret qty
         else mret qty);
  let sales_value := py_round (float_mul base_price (float_of_int qty)) 2 in
  store_id ← np_random_choice [300; 400; 500];
  r ← np_random_rand;
  let retail_disc :=
    if float_gt r (float_literal (8 # 10))
    then py_round (float_mul sales_value (float_literal (1 # 10))) 2
    else float_of_int 0 in
  trans_time ← np_random_randint 800 2200;
  mret (Locals hh prod days_offset trans_date is_weekend income_val base_price
          qty sales_value,
        Transaction.Make (household_key hh) (30000000000 + i / 3)
          (strftime_Ymd trans_date) (Product.PRODUCT_ID prod) qty sales_value
          store_id retail_disc trans_time (days_offset / 7 + 1)).

(** The module's tables once the script has run; [generated] pairs each
    transaction with the local variables of its iteration. *)
Record globals := Globals {
  demo_df : list household;
  product_df : list Product.t;
  generated : list (locals * Transaction.t)
}.

Definition transaction_df (g : globals) : list Transaction.t := (generated g).*2.

Definition demo_data_gen : Py store globals :=
  np_random_seed 42;;
  demo_df ← make_demo_df;
  product_df ← make_product_df;
  generated ← for_append (seqZ 0 2000) (transaction_body demo_df product_df);
  let g := Globals demo_df product_df generated in
  to_csv demo_df "hh_demographic.csv";;
  to_csv product_df "product.csv";;
  to_csv (transaction_df g) "transaction_data.csv";;
  print "Synthetic demo data generated successfully!";;
  mret g.

(** The three files of a store, as written by the script. *)
Definition output_files (s : store) : list (option string) :=
  [files s !! "hh_demographic.csv"; files s !! "product.csv";
   files s !! "transaction_data.csv"].

End Script.

End Generator.

(** ** Sample environments

    Small executable stand-ins for the libraries, on which the scripts can
    be run. *)

Module Sample.

(** *** A warehouse for the loader *)

(** The world counts the connections opened so far and remembers which
    were closed; a connection is its number, a frame the path it was read
    from. *)
Record warehouse_world := WarehouseWorld {
  opened : nat;
  closed_connections : list nat
}.

(** [refused n]: the connection attempt number [n] (from 0) raises;
    [unreadable]: the files whose read raises; [upload]: what the upload to
    a table gives. *)
Definition warehouse
  (refused : nat → bool) (unreadable : list string)
  (upload : string → outcome (bool * Z * Z)) : Loader.Env :=
  {| Loader.world := warehouse_world;
     Loader.connection := nat;
     Loader.DataFrame := string;
     Loader.load_dotenv := λ w, w;
     Loader.getenv := λ _ _, None;
     Loader.connect := λ _ w,
       if refused (opened w)
       then (Raise (PyExn true "could not connect to the warehouse"),
             WarehouseWorld (S (opened w)) (closed_connections w))
       else (Ok (opened w), WarehouseWorld (S (opened w)) (closed_connections w));
     Loader.read_csv := λ path w,
       if bool_decide (path ∈ unreadable)
       then (Raise (PyExn true ("No such file or directory: " +:+ path)), w)
       else (Ok path, w);
     Loader.write_pandas := λ _ _ table _ _ w, (upload table, w);
     Loader.close := λ c w, WarehouseWorld (opened w) (closed_connections w ++ [c]) |}.

Definition fresh : warehouse_world := WarehouseWorld 0 [].

(** Every upload succeeds with ten rows. *)
Definition uploads_ok (table : string) : outcome (bool * Z * Z) := Ok (true, 1, 10).

(** The upload to [PRODUCTS], the second of the run, raises. *)
Definition products_upload_raises (table : string) : outcome (bool * Z * Z) :=
  if bool_decide (table = "PRODUCTS")
  then Raise (PyExn true "upload failed")
  else Ok (true, 1, 10).

(** The upload to [PRODUCTS] reports failure without raising. *)
Definition products_upload_unsuccessful (table : string) : outcome (bool * Z * Z) :=
  if bool_decide (table = "PRODUCTS") then Ok (false, 0, 0) else Ok (true, 1, 10).

(** The second connection attempt is refused. *)
Definition second_refused (n : nat) : bool := bool_decide (n = 1%nat).

Definition never_refused (n : nat) : bool := false.

(** Four warehouses: one that refuses the second connection, one whose
    second upload raises, one where the product file cannot be read, one
    whose second upload reports failure. *)
Definition refusing : Loader.Env := warehouse second_refused [] uploads_ok.

Definition failing_upload : Loader.Env :=
  warehouse never_refused [] products_upload_raises.

Definition unreadable_product : Loader.Env :=
  warehouse never_refused ["./data/product.csv"] uploads_ok.

Definition unsuccessful_upload : Loader.Env :=
  warehouse never_refused [] products_upload_unsuccessful.

(** The upload is interrupted from the keyboard: the exception does not
    derive from [Exception]. *)
Definition upload_interrupted (table : string) : outcome (bool * Z * Z) :=
  Raise (PyExn false "KeyboardInterrupt").

Definition interrupted : Loader.Env := warehouse never_refused [] upload_interrupted.

(** No connection attempt succeeds. *)
Definition always_refused (n : nat) : bool := true.

Definition unreachable : Loader.Env := warehouse always_refused [] uploads_ok.

(** Every step of every operation succeeds. *)
Definition healthy : Loader.Env := warehouse never_refused [] uploads_ok.

(** The warehouse accepts three connections and refuses every later
    attempt; the upload to [PRODUCTS] raises. *)
Definition refused_from_fourth (n : nat) : bool := bool_decide (3 ≤ n)%nat.

Definition three_connections : Loader.Env :=
  warehouse refused_from_fourth [] products_upload_raises.

(** The product file cannot be read, and every upload is interrupted from
    the keyboard. *)
Definition unreadable_and_interrupted : Loader.Env :=
  warehouse never_refused ["./data/product.csv"] upload_interrupted.

(** The states of the run of the entry point on [three_connections]: with
    the first, second and third connection acquired, and after the first
    and the second operation. *)
Definition first_connected : Loader.state (E := three_connections) :=
  Loader.State (E := three_connections) (WarehouseWorld 1 [])
    [Loader.Connected (E := three_connections) 0%nat].

Definition first_done : Loader.state (E := three_connections) :=
  Loader.State (E := three_connections) (WarehouseWorld 1 [0%nat])
    [Loader.Connected (E := three_connections) 0%nat;
     Loader.Printed
       "Starting ingestion for: ./data/transaction_data.csv into table TRANSACTIONS";
     Loader.ReadCsv "./data/transaction_data.csv";
     Loader.WritePandas (E := three_connections) 0%nat "TRANSACTIONS";
     Loader.Printed "Successfully ingested 10 rows into TRANSACTIONS";
     Loader.Closed (E := three_connections) 0%nat].

Definition second_connected : Loader.state (E := three_connections) :=
  Loader.State (E := three_connections) (WarehouseWorld 2 [0%nat])
    (Loader.trace first_done ++ [Loader.Connected (E := three_connections) 1%nat]).

Definition second_done : Loader.state (E := three_connections) :=
  Loader.State (E := three_connections) (WarehouseWorld 2 [0%nat; 1%nat])
    (Loader.trace second_connected
     ++ [Loader.Printed "Starting ingestion for: ./data/product.csv into table PRODUCTS";
         Loader.ReadCsv "./data/product.csv";
         Loader.WritePandas (E := three_connections) 1%nat "PRODUCTS";
         Loader.Printed "Error during ingestion: upload failed";
         Loader.Closed (E := three_connections) 1%nat]).

Definition third_connected : Loader.state (E := three_connections) :=
  Loader.State (E := three_connections) (WarehouseWorld 3 [0%nat; 1%nat])
    (Loader.trace second_done ++ [Loader.Connected (E := three_connections) 2%nat]).

(** *** A random state for the generator *)

Definition lcg_next (g : Z) : Z := (g * 1103515245 + 12345) mod 2147483648.

Fixpoint lcg_picks (n k : nat) (g : Z) : list nat * Z :=
  match k with
  | O => ([], g)
  | S k' =>
      let '(rest, g') := lcg_picks n k' (lcg_next g) in
      (Z.to_nat (g mod Z.of_nat n) :: rest, g')
  end.

Definition lcg : Generator.Random :=
  {| Generator.rng := Z;
     Generator.seed := λ n, lcg_next (Z.abs n);
     Generator.choice := λ n g, (Z.to_nat (g mod Z.of_nat n), lcg_next g);
     Generator.choice_size := lcg_picks;
     Generator.choice_size_p := λ n k _, lcg_picks n k;
     Generator.randint := λ lo hi g, (lo + g mod (hi - lo), lcg_next g);
     Generator.uniform := λ lo hi g,
       ((lo + (hi - lo) * inject_Z (g mod 1024) / 1024)%Q, lcg_next g);
     Generator.rand := λ g, ((inject_Z (g mod 1024) / 1024)%Q, lcg_next g);
     Generator.sample_position := λ n g, (Z.to_nat (g mod Z.of_nat n), lcg_next g) |}.

(** Arithmetic without rounding error. *)
Definition exact : Generator.Float := {| Generator.fl := λ x, x |}.

(** One line per row, the key or id of the row on it. *)
Definition csv_lines {row} (key : row → Z) : Generator.Csv row :=
  {| Generator.to_csv_text := λ df,
       String.concat (String (Ascii.ascii_of_nat 10) "") (map (λ r, pretty (key r)) df) |}.

Definition initial_store (g : Z) : @Generator.store lcg :=
  @Generator.Store lcg g ∅ [].

(** The script on the sample libraries. *)
Definition demo_data_gen : Py (@Generator.store lcg) Generator.globals :=
  Generator.demo_data_gen (R := lcg) (F := exact)
    (CsvH := csv_lines Generator.household_key)
    (CsvP := csv_lines Generator.Product.PRODUCT_ID)
    (CsvT := csv_lines Generator.Transaction.BASKET_ID).

End Sample.

(** ** Vocabulary of the statements about the loader *)

Section LoaderVocabulary.
Import Loader.
Context {E : Env}.

(** The trace of one load operation, by the way it went. *)
Inductive load_trace (file_path table_name : string) : list event → Prop :=
| load_ingested c nrows :
    load_trace file_path table_name
      [Connected c; Printed (starting_message file_path table_name);
       ReadCsv file_path; WritePandas c table_name;
       Printed (success_message nrows table_name); Closed c]
| load_unsuccessful c :
    load_trace file_path table_name
      [Connected c; Printed (starting_message file_path table_name);
       ReadCsv file_path; WritePandas c table_name; Closed c]
| load_read_error c e :
    load_trace file_path table_name
      [Connected c; Printed (starting_message file_path table_name);
       ReadCsv file_path; Printed (error_message e); Closed c]
| load_upload_error c e :
    load_trace file_path table_name
      [Connected c; Printed (starting_message file_path table_name);
       ReadCsv file_path; WritePandas c table_name;
       Printed (error_message e); Closed c].

(** An exception [e] leaves the [try] block of the operation on
    [file_path] and [table_name], entered in state [s1] with connection
    [c]: the read raises it, or the read returns and the upload raises it. *)
Definition raised_in_try (file_path table_name : string) (c : connection)
  (s1 : state) (e : py_exn) : Prop :=
  (∃ w, read_csv file_path (the_world s1) = (Raise e, w))
  ∨ (∃ df w w', read_csv file_path (the_world s1) = (Ok df, w)
               ∧ write_pandas c df table_name true true w = (Raise e, w')).

(** Whatever leaves the [try] block of this operation derives from
    [Exception]; nothing leaves it when the read and the upload return. *)
Definition raises_only_Exception (file_path table_name : string) (c : connection)
  (s1 : state) : Prop :=
  ∀ e, raised_in_try file_path table_name c s1 e → is_Exception e = true.

End LoaderVocabulary.

(** ** Vocabulary of the statements about the generator *)

Section Vocabulary.
Import Generator.
Context {R : Random} {F : Float}.

(** The income bracket carries one of the two high-income markers. *)
Definition high_income (h : household) : bool :=
  str_in "100" (INCOME_DESC h) || str_in "250" (INCOME_DESC h).

(** The quantity of an iteration is a base draw, plus an extra draw for a
    household with kids, plus a weekend bonus. *)
Definition quantity_parts (l : locals) (base extra bonus : Z) : Prop :=
  qty l = base + extra + bonus
  ∧ 1 ≤ base ≤ 2
  ∧ (if decide (KID_CATEGORY_DESC (hh l) = "None/Unknown")
     then extra = 0 else 1 ≤ extra ≤ 2)
  ∧ 0 ≤ bonus ≤ 1
  ∧ (is_weekend l = false → bonus = 0).

(** The unit price of an iteration: a draw from [1, 10), times 1.5 for a
    high-income household. *)
Definition unit_price (l : locals) (drawn : Q) : Prop :=
  (1 <= drawn)%Q ∧ (drawn < 10)%Q
  ∧ base_price l = (if high_income (hh l)
                    then float_mul drawn (float_literal (15 # 10))
                    else drawn).

(** What iteration [i] of the transaction loop leaves in its local
    variables [l] and in the row [t] it appends. *)
Record iteration (demo_df : list household) (product_df : list Product.t)
  (i : Z) (l : locals) (t : Transaction.t) : Prop := {
  it_household : hh l ∈ demo_df;
  it_household_key : Transaction.HOUSEHOLD_KEY t = household_key (hh l);
  it_product : prod l ∈ product_df;
  it_product_id : Transaction.PRODUCT_ID t = Product.PRODUCT_ID (prod l);
  it_basket_id : Transaction.BASKET_ID t = 30000000000 + i / 3;
  it_days_offset : 0 ≤ days_offset l < 365;
  it_trans_date : trans_date l = add_days start_date (days_offset l);
  it_is_weekend : is_weekend l = bool_decide (5 ≤ weekday (trans_date l));
  it_day : Transaction.DAY t = strftime_Ymd (trans_date l);
  it_week_no : Transaction.WEEK_NO t = days_offset l / 7 + 1;
  it_unit_price : ∃ drawn, unit_price l drawn;
  it_quantity : Transaction.QUANTITY t = qty l;
  it_quantity_parts : ∃ base extra bonus, quantity_parts l base extra bonus;
  it_sales_value :
    sales_value l = py_round (float_mul (base_price l) (float_of_int (qty l))) 2;
  it_sales_value_row : Transaction.SALES_VALUE t = sales_value l
}.

(** What the loop over [range(1, 51)] leaves in the row of product [i]. *)
Record product_row (i : Z) (p : Product.t) : Prop := {
  pr_id : Product.PRODUCT_ID p = 1000 + i;
  pr_department : Product.DEPARTMENT p ∈ departments;
  pr_commodity : ∃ valid, commodities !! Product.DEPARTMENT p = Some valid
                          ∧ Product.COMMODITY_DESC p ∈ valid;
  pr_sub_commodity :
    Product.SUB_COMMODITY_DESC p = "SUB_" +:+ Product.COMMODITY_DESC p
}.

(** The tables of a finished run. *)
Record generated_tables (g : globals) : Prop := {
  gt_households :
    Forall2 (λ k h, household_key h = k) (seqZ 1 100) (demo_df g);
  gt_products : Forall2 product_row (seqZ 1 50) (product_df g);
  gt_transactions :
    Forall2 (λ i lt, iteration (demo_df g) (product_df g) i lt.1 lt.2)
      (seqZ 0 2000) (generated g)
}.

End Vocabulary.

(** ** What the statements about a finished run say *)

Section Properties.
Import Generator.
Context {F : Float}.

(** Every transaction refers to a row of the household table and to a row
    of the product table. *)
Definition references_resolve (g : globals) : Prop :=
  Forall (λ t,
      (∃ h, h ∈ demo_df g ∧ household_key h = Transaction.HOUSEHOLD_KEY t)
      ∧ (∃ p, p ∈ product_df g
              ∧ Product.PRODUCT_ID p = Transaction.PRODUCT_ID t))
    (transaction_df g).

(** Every product has the sub-commodity derived from its commodity, and a
    commodity of its department's list. *)
Definition commodity_rules (g : globals) : Prop :=
  Forall (λ p,
      Product.SUB_COMMODITY_DESC p = "SUB_" +:+ Product.COMMODITY_DESC p
      ∧ ∃ valid, commodities !! Product.DEPARTMENT p = Some valid
                 ∧ Product.COMMODITY_DESC p ∈ valid)
    (product_df g).

(** The transaction at index [i] has basket id [30000000000 + i // 3], so
    two transactions share a basket id exactly when their indices have the
    same quotient by 3. *)
Definition basket_id_rule (g : globals) : Prop :=
  length (transaction_df g) = 2000%nat
  ∧ (∀ i t, transaction_df g !! i = Some t →
            Transaction.BASKET_ID t = 30000000000 + Z.of_nat i / 3)
  ∧ (∀ i j ti tj,
       transaction_df g !! i = Some ti → transaction_df g !! j = Some tj →
       (Transaction.BASKET_ID ti = Transaction.BASKET_ID tj
        ↔ Z.of_nat i / 3 = Z.of_nat j / 3)).

(** How many transactions of a table carry the basket id [b]. *)
Definition basket_size (df : list Transaction.t) (b : Z) : nat :=
  length (filter (λ t, Transaction.BASKET_ID t = b) df).

Definition basket_ids (df : list Transaction.t) : list Z :=
  Transaction.BASKET_ID <$> df.

(** Every basket id of the table is shared by exactly 3 transactions. *)
Definition baskets_of_three (g : globals) : Prop :=
  ∀ b, b ∈ basket_ids (transaction_df g) → basket_size (transaction_df g) b = 3%nat.

(** The indices of the transactions of a table that carry the basket id
    [b], in the order of the table. *)
Definition basket_indices (df : list Transaction.t) (b : Z) : list nat :=
  (filter (λ it : nat * Transaction.t, Transaction.BASKET_ID it.2 = b)
     (imap pair df)).*1.

(** The table has 2000 rows and its basket ids are [30000000000 + k] for
    [k] from 0 to 666.  Each basket groups contiguous indices: for [k]
    below 666 the transactions with basket id [30000000000 + k] are the 3
    transactions of indices [3 * k], [3 * k + 1] and [3 * k + 2]; the last
    basket id, 30000000666, is carried by the 2 transactions of indices
    1998 and 1999. *)
Definition baskets_of_three_but_last (g : globals) : Prop :=
  length (transaction_df g) = 2000%nat
  ∧ (∀ b, b ∈ basket_ids (transaction_df g)
          ↔ ∃ k, 0 ≤ k ≤ 666 ∧ b = 30000000000 + k)
  ∧ (∀ k : nat, (k < 666)%nat →
       basket_indices (transaction_df g) (30000000000 + Z.of_nat k)
       = [3 * k; 3 * k + 1; 3 * k + 2]%nat
       ∧ basket_size (transaction_df g) (30000000000 + Z.of_nat k) = 3%nat)
  ∧ basket_indices (transaction_df g) 30000000666 = [1998; 1999]%nat
  ∧ basket_size (transaction_df g) 30000000666 = 2%nat.

(** Sales value is the rounded product of the iteration's unit price and
    quantity; the unit price is a draw from [1, 10), times 1.5 for a
    high-income household, and so lies in [1, 15]; the quotient of sales
    value by quantity, exact or as a float, lies in [1, 15]. *)
Definition sales_value_rule (g : globals) : Prop :=
  Forall (λ lt : locals * Transaction.t,
      Transaction.SALES_VALUE lt.2
      = py_round (float_mul (base_price lt.1)
                    (float_of_int (Transaction.QUANTITY lt.2))) 2
      ∧ (∃ drawn, unit_price lt.1 drawn)
      ∧ (1 <= base_price lt.1)%Q ∧ (base_price lt.1 <= 15)%Q
      ∧ (1 <= Transaction.SALES_VALUE lt.2 / inject_Z (Transaction.QUANTITY lt.2))%Q
      ∧ (Transaction.SALES_VALUE lt.2 / inject_Z (Transaction.QUANTITY lt.2) <= 15)%Q
      ∧ (1 <= float_div (Transaction.SALES_VALUE lt.2)
                (float_of_int (Transaction.QUANTITY lt.2)))%Q
      ∧ (float_div (Transaction.SALES_VALUE lt.2)
           (float_of_int (Transaction.QUANTITY lt.2)) <= 15)%Q)
    (generated g).

(** Quantity is between 1 and 5: a base of 1 or 2, an extra 1 or 2 only for
    a household of the table whose kid category is not [None/Unknown], and
    1 more only on a date that falls on a weekend. *)
Definition quantity_rule (g : globals) : Prop :=
  Forall (λ lt : locals * Transaction.t,
      1 ≤ Transaction.QUANTITY lt.2 ≤ 5
      ∧ (∃ base extra bonus,
            Transaction.QUANTITY lt.2 = base + extra + bonus
            ∧ quantity_parts lt.1 base extra bonus)
      ∧ hh lt.1 ∈ demo_df g
      ∧ Transaction.HOUSEHOLD_KEY lt.2 = household_key (hh lt.1)
      ∧ Transaction.DAY lt.2 = strftime_Ymd (trans_date lt.1)
      ∧ is_weekend lt.1 = bool_decide (5 ≤ weekday (trans_date lt.1)))
    (generated g).

End Properties.

Section RunVocabulary.
Import Generator.
Context {R : Random} {F : Float}.
Context {CsvH : Csv household} {CsvP : Csv Product.t} {CsvT : Csv Transaction.t}.

(** A statement that touches nothing but the random state: its value and
    the next random state depend on the random state alone, and it leaves
    the files and the printed lines as they are. *)
Definition rng_only {A} (m : Py store A) : Prop :=
  ∀ g, ∃ r g', ∀ fs out, m (Store g fs out) = (r, Store g' fs out).

(** The part of the script that builds the tables, and the part that
    writes them out. *)
Definition build_tables : Py store globals :=
  demo_df ← make_demo_df;
  product_df ← make_product_df;
  generated ← for_append (seqZ 0 2000) (transaction_body demo_df product_df);
  mret (Globals demo_df product_df generated).

Definition write_tables (g : globals) : Py store globals :=
  to_csv (demo_df g) "hh_demographic.csv";;
  to_csv (product_df g) "product.csv";;
  to_csv (transaction_df g) "transaction_data.csv";;
  print "Synthetic demo data generated successfully!";;
  mret g.

(** Two runs end normally with the same tables, and leave the same three
    files, which hold the text of those tables. *)
Definition same_tables_and_files (r1 r2 : outcome globals * store) : Prop :=
  ∃ g, r1.1 = Ok g ∧ r2.1 = Ok g
       ∧ output_files r1.2
         = [Some (to_csv_text (demo_df g)); Some (to_csv_text (product_df g));
            Some (to_csv_text (transaction_df g))]
       ∧ output_files r2.2 = output_files r1.2.

End RunVocabulary.

(** ** Further vocabulary: connections in a trace *)

Section ConnectionVocabulary.
Import Loader.
Context {E : Env}.

Definition connection_event (ev : event) : Prop :=
  match ev with
  | Connected _ | Closed _ => True
  | _ => False
  end.

(** The connection events of a trace come in pairs: a connection is
    acquired, then nothing is acquired or closed until that connection is
    closed.  So at most one connection is open at any point of the trace,
    and none at its end. *)
Inductive scoped : list event → Prop :=
| scoped_nil : scoped []
| scoped_use c mid rest :
    Forall (λ ev, ¬ connection_event ev) mid → scoped rest →
    scoped (Connected c :: mid ++ Closed c :: rest).

Definition connections (tr : list event) : list connection :=
  omap (λ ev, match ev with Connected c => Some c | _ => None end) tr.

Definition uploads (tr : list event) : list string :=
  omap (λ ev, match ev with WritePandas _ table => Some table | _ => None end) tr.

End ConnectionVocabulary.

(** ** Further vocabulary: the values a row can take *)

Section DomainVocabulary.
Import Generator.
Context {F : Float}.

Record household_domains (h : household) : Prop := {
  hd_age : AGE_DESC h ∈ age_groups;
  hd_marital : MARITAL_STATUS_CODE h ∈ ["A"; "B"; "U"];
  hd_income : INCOME_DESC h ∈ income_groups;
  hd_homeowner : HOMEOWNER_DESC h ∈ ["Homeowner"; "Renter"; "Unknown"];
  hd_comp : HH_COMP_DESC h ∈ hh_comp;
  hd_size : HOUSEHOLD_SIZE_DESC h ∈ hh_sizes;
  hd_kid : KID_CATEGORY_DESC h ∈ ["None/Unknown"; "1"; "2"; "3+"]
}.

Record product_domains (p : Product.t) : Prop := {
  pd_manufacturer : 1 ≤ Product.MANUFACTURER p < 100;
  pd_department : Product.DEPARTMENT p ∈ departments;
  pd_brand : Product.BRAND p ∈ ["National"; "Private"];
  pd_size : ∃ n, 5 ≤ n < 50 ∧ Product.CURR_SIZE_OF_PRODUCT p = pretty n +:+ " OZ"
}.

Record transaction_domains (t : Transaction.t) : Prop := {
  td_store : Transaction.STORE_ID t ∈ [300; 400; 500];
  td_time : 800 ≤ Transaction.TRANS_TIME t < 2200;
  td_discount :
    Transaction.RETAIL_DISC t = float_of_int 0
    ∨ Transaction.RETAIL_DISC t
      = py_round (float_mul (Transaction.SALES_VALUE t) (float_literal (1 # 10))) 2
}.

Definition table_domains (g : globals) : Prop :=
  Forall household_domains (demo_df g)
  ∧ Forall product_domains (product_df g)
  ∧ Forall transaction_domains (transaction_df g).

(** Keys and ids of the two reference tables. *)
Definition household_keys (g : globals) : list Z := household_key <$> demo_df g.

Definition product_ids (g : globals) : list Z := Product.PRODUCT_ID <$> product_df g.

End DomainVocabulary.

(** ** Further vocabulary: what the extra statements about a run say *)

Section ExtraProperties.
Import Generator.
Context {R : Random} {F : Float}.

(** The household keys are 1 to 100 in table order. *)
Definition keys_in_order (g : globals) : Prop :=
  household_keys g = seqZ 1 100 ∧ NoDup (household_keys g)
  ∧ length (demo_df g) = 100%nat.

(** The product ids are 1001 to 1050 in table order. *)
Definition ids_in_order (g : globals) : Prop :=
  product_ids g = seqZ 1001 50 ∧ NoDup (product_ids g)
  ∧ length (product_df g) = 50%nat.

Definition transaction_ranges (g : globals) : Prop :=
  Forall (λ t, Transaction.STORE_ID t ∈ [300; 400; 500]
               ∧ 800 ≤ Transaction.TRANS_TIME t < 2200
               ∧ 1 ≤ Transaction.WEEK_NO t ≤ 53)
    (transaction_df g).

(** The retail discount is zero or the rounded tenth of the sales value,
    and in both cases lies between zero and the sales value. *)
Definition discount_rule (g : globals) : Prop :=
  Forall (λ t,
      (Transaction.RETAIL_DISC t = float_of_int 0
       ∨ Transaction.RETAIL_DISC t
         = py_round (float_mul (Transaction.SALES_VALUE t)
                       (float_literal (1 # 10))) 2)
      ∧ (0 <= Transaction.RETAIL_DISC t)%Q
      ∧ (Transaction.RETAIL_DISC t <= Transaction.SALES_VALUE t)%Q)
    (transaction_df g).

(** What holds of the date [d] reached from the start date by [offset]
    days, and of its text: a day of the year 2021. *)
Definition day_of_2021 (offset : Z) (d : datetime) (text : string) : Prop :=
  year d = 2021 ∧ 1 ≤ month d ≤ 12 ∧ 1 ≤ day d ≤ days_in_month 2021 (month d)
  ∧ toordinal d = toordinal start_date + offset
  ∧ text = "2021-" +:+ zero_padded 2 (month d) +:+ "-" +:+ zero_padded 2 (day d)
  ∧ String.length text = 10%nat.

Definition dates_in_2021 (g : globals) : Prop :=
  Forall (λ lt : locals * Transaction.t,
      day_of_2021 (days_offset lt.1) (trans_date lt.1) (Transaction.DAY lt.2))
    (generated g).

(** 1 January 2021 is a Friday: the weekend days are those whose offset
    leaves remainder 1 or 2 by 7. *)
Definition weekend_rule (g : globals) : Prop :=
  Forall (λ lt : locals * Transaction.t,
      weekday (trans_date lt.1) = (days_offset lt.1 + 4) mod 7
      ∧ (is_weekend lt.1 = true
         ↔ days_offset lt.1 mod 7 = 1 ∨ days_offset lt.1 mod 7 = 2))
    (generated g).

(** The price multiplier applies to the income brackets 100-124K and 250K+
    and to no other bracket of the table. *)
Definition income_rule (g : globals) : Prop :=
  Forall (λ lt : locals * Transaction.t,
      (high_income (hh lt.1) = true
       ↔ INCOME_DESC (hh lt.1) = "100-124K" ∨ INCOME_DESC (hh lt.1) = "250K+")
      ∧ (if high_income (hh lt.1)
         then (15 # 10 <= base_price lt.1)%Q ∧ (base_price lt.1 <= 15)%Q
         else (1 <= base_price lt.1)%Q ∧ (base_price lt.1 < 10)%Q))
    (generated g).


End ExtraProperties.

(** * Proofs *)

(** ** Statements in the monad *)

Section PyFacts.
Context {S : Type}.

Lemma bind_ok {A B} (m : Py S A) (k : A → Py S B) s a s' :
  m s = (Ok a, s') → (m ≫= k) s = k a s'.
Proof. intros Hm. unfold mbind, Py_bind, py_bind. by rewrite Hm. Qed.

Lemma bind_raise {A B} (m : Py S A) (k : A → Py S B) s e s' :
  m s = (Raise e, s') → (m ≫= k) s = (Raise e, s').
Proof. intros Hm. unfold mbind, Py_bind, py_bind. by rewrite Hm. Qed.

Lemma bind_inv_ok {A B} (m : Py S A) (k : A → Py S B) s b s' :
  (m ≫= k) s = (Ok b, s') → ∃ a s1, m s = (Ok a, s1) ∧ k a s1 = (Ok b, s').
Proof.
  unfold mbind, Py_bind, py_bind. destruct (m s) as [[a|e] s1]; [eauto | done].
Qed.

End PyFacts.

(** ** The loader *)

Section LoaderFacts.
Import Loader.
Context {E : Env}.

Lemma get_connection_ok s c s1 :
  get_snowflake_connection s = (Ok c, s1) →
  trace s1 = trace s ++ [Connected c].
Proof.
  unfold get_snowflake_connection, os_getenv, call, emit, py_modify.
  unfold mbind, Py_bind, py_bind, mret, Py_ret, py_ret. simpl.
  destruct (connect _ _) as [[c'|e] w]; [|done].
  intros [= <- <-]. done.
Qed.

Ltac run_py :=
  unfold try_finally, try_except, print, emit, call, py_modify;
  unfold mbind, Py_bind, py_bind, mret, Py_ret, py_ret; simpl.

(** The four ways out of the [try] block, once the connection is there. *)
Lemma load_read_raises file_path table_name s c s1 e w :
  get_snowflake_connection s = (Ok c, s1) →
  read_csv file_path (the_world s1) = (Raise e, w) →
  load_csv_to_snowflake file_path table_name s =
    if is_Exception e
    then (Ok tt, State (close c w)
            (trace s1 ++ [Printed (starting_message file_path table_name);
                          ReadCsv file_path; Printed (error_message e); Closed c]))
    else (Raise e, State (close c w)
            (trace s1 ++ [Printed (starting_message file_path table_name);
                          ReadCsv file_path; Closed c])).
Proof.
  intros Hc Hr. unfold load_csv_to_snowflake. rewrite (bind_ok _ _ _ _ _ Hc).
  run_py. rewrite Hr. destruct (is_Exception e); simpl;
    by rewrite <- ?app_assoc.
Qed.

Lemma load_upload_raises file_path table_name s c s1 df w e w' :
  get_snowflake_connection s = (Ok c, s1) →
  read_csv file_path (the_world s1) = (Ok df, w) →
  write_pandas c df table_name true true w = (Raise e, w') →
  load_csv_to_snowflake file_path table_name s =
    if is_Exception e
    then (Ok tt, State (close c w')
            (trace s1 ++ [Printed (starting_message file_path table_name);
                          ReadCsv file_path; WritePandas c table_name;
                          Printed (error_message e); Closed c]))
    else (Raise e, State (close c w')
            (trace s1 ++ [Printed (starting_message file_path table_name);
                          ReadCsv file_path; WritePandas c table_name; Closed c])).
Proof.
  intros Hc Hr Hu. unfold load_csv_to_snowflake. rewrite (bind_ok _ _ _ _ _ Hc).
  run_py. rewrite Hr. simpl. rewrite Hu. destruct (is_Exception e); simpl;
    by rewrite <- ?app_assoc.
Qed.

Lemma load_upload_returns file_path table_name s c s1 df w success nchunks nrows w' :
  get_snowflake_connection s = (Ok c, s1) →
  read_csv file_path (the_world s1) = (Ok df, w) →
  write_pandas c df table_name true true w = (Ok (success, nchunks, nrows), w') →
  load_csv_to_snowflake file_path table_name s =
    (Ok tt, State (close c w')
       (trace s1 ++ [Printed (starting_message file_path table_name);
                     ReadCsv file_path; WritePandas c table_name]
                 ++ (if success then [Printed (success_message nrows table_name)] else [])
                 ++ [Closed c])).
Proof.
  intros Hc Hr Hu. unfold load_csv_to_snowflake. rewrite (bind_ok _ _ _ _ _ Hc).
  run_py. rewrite Hr. simpl. rewrite Hu. destruct success; simpl;
    by rewrite <- ?app_assoc.
Qed.

Lemma load_connect_raises file_path table_name s e s1 :
  get_snowflake_connection s = (Raise e, s1) →
  load_csv_to_snowflake file_path table_name s = (Raise e, s1).
Proof. intros Hc. unfold load_csv_to_snowflake. by rewrite (bind_raise _ _ _ _ _ Hc). Qed.

End LoaderFacts.

Section LoaderClaims.
Import Loader.
Context {E : Env}.

Lemma starting_message_is_no_report file_path table_name :
  is_success_message (starting_message file_path table_name) = false
  ∧ is_error_message (starting_message file_path table_name) = false.
Proof. split; reflexivity. Qed.

(** C5.  In every load operation that acquires its connection [c], closing
    [c] is the last thing the operation does, whatever way the [try] block
    is left: the upload returned (successful or not), the read or the upload
    raised an exception that was caught, or one that was not.  Nothing of
    the operation follows the close, and [c] is not closed earlier. *)
Theorem connection_closed_on_every_exit file_path table_name s c s1 :
  get_snowflake_connection s = (Ok c, s1) →
  ∃ r w before,
    load_csv_to_snowflake file_path table_name s
    = (r, State (close c w) (trace s ++ Connected c :: before ++ [Closed c]))
    ∧ Forall (λ ev, ∀ c', ev ≠ Closed c' ∧ ev ≠ Connected c') before.
Proof.
  intros Hc. pose proof (get_connection_ok _ _ _ Hc) as Htr.
  assert (Hno : ∀ evs : list event,
             Forall (λ ev, match ev with Closed _ | Connected _ => False | _ => True end) evs →
             Forall (λ ev, ∀ c', ev ≠ Closed c' ∧ ev ≠ Connected c') evs).
  { intros evs Hevs. eapply Forall_impl; [exact Hevs |].
    intros [] Hev c'; done. }
  destruct (read_csv file_path (the_world s1)) as [[df|e] w] eqn:Hr.
  - destruct (write_pandas c df table_name true true w)
      as [[[[success nchunks] nrows]|e] w'] eqn:Hu.
    + rewrite (load_upload_returns _ _ _ _ _ _ _ _ _ _ _ Hc Hr Hu), Htr.
      destruct success; cbn [app]; rewrite <- (app_assoc (trace s)); cbn [app].
      * exists (Ok tt), w',
          [Printed (starting_message file_path table_name); ReadCsv file_path;
           WritePandas c table_name; Printed (success_message nrows table_name)].
        split; [reflexivity | apply Hno; repeat constructor].
      * exists (Ok tt), w',
          [Printed (starting_message file_path table_name); ReadCsv file_path;
           WritePandas c table_name].
        split; [reflexivity | apply Hno; repeat constructor].
    + rewrite (load_upload_raises _ _ _ _ _ _ _ _ _ Hc Hr Hu), Htr.
      destruct (is_Exception e); rewrite <- (app_assoc (trace s)); cbn [app].
      * exists (Ok tt), w',
          [Printed (starting_message file_path table_name); ReadCsv file_path;
           WritePandas c table_name; Printed (error_message e)].
        split; [reflexivity | apply Hno; repeat constructor].
      * exists (Raise e), w',
          [Printed (starting_message file_path table_name); ReadCsv file_path;
           WritePandas c table_name].
        split; [reflexivity | apply Hno; repeat constructor].
  - rewrite (load_read_raises _ table_name _ _ _ _ _ Hc Hr), Htr.
    destruct (is_Exception e); rewrite <- (app_assoc (trace s)); cbn [app].
    + exists (Ok tt), w,
        [Printed (starting_message file_path table_name); ReadCsv file_path;
         Printed (error_message e)].
      split; [reflexivity | apply Hno; repeat constructor].
    + exists (Raise e), w,
        [Printed (starting_message file_path table_name); ReadCsv file_path].
      split; [reflexivity | apply Hno; repeat constructor].
Qed.

(** C10.  When the upload returns an unsuccessful result without raising,
    the operation prints the starting message and nothing else, so neither
    a success message nor an error message; it closes the connection as its
    last step and returns normally. *)
Theorem unsuccessful_upload_is_silent
  file_path table_name s c s1 df w nchunks nrows w' :
  get_snowflake_connection s = (Ok c, s1) →
  read_csv file_path (the_world s1) = (Ok df, w) →
  write_pandas c df table_name true true w = (Ok (false, nchunks, nrows), w') →
  ∃ tr,
    load_csv_to_snowflake file_path table_name s
    = (Ok tt, State (close c w') (trace s ++ tr))
    ∧ printed tr = [starting_message file_path table_name]
    ∧ Forall (λ line, is_success_message line = false
                      ∧ is_error_message line = false) (printed tr)
    ∧ last tr = Some (Closed c).
Proof.
  intros Hc Hr Hu.
  rewrite (load_upload_returns _ _ _ _ _ _ _ _ _ _ _ Hc Hr Hu),
    (get_connection_ok _ _ _ Hc).
  eexists. split; [rewrite <- !app_assoc; reflexivity |].
  simpl. split; [done |]. split; [| done].
  constructor; [apply starting_message_is_no_report | constructor].
Qed.

End LoaderClaims.

Section LoaderIsolation.
Import Loader.
Context {E : Env}.

Lemma load_completes file_path table_name s c s1 :
  get_snowflake_connection s = (Ok c, s1) →
  raises_only_Exception file_path table_name c s1 →
  ∃ s' seg,
    load_csv_to_snowflake file_path table_name s = (Ok tt, s')
    ∧ trace s' = trace s ++ seg
    ∧ load_trace file_path table_name seg
    ∧ last seg = Some (Closed c)
    ∧ ∀ e, raised_in_try file_path table_name c s1 e →
           last (printed seg) = Some (error_message e).
Proof.
  intros Hc Hcaught. pose proof (get_connection_ok _ _ _ Hc) as Htr.
  destruct (read_csv file_path (the_world s1)) as [[df|e] w] eqn:Hr.
  - destruct (write_pandas c df table_name true true w)
      as [[[[success nchunks] nrows]|e] w'] eqn:Hu.
    + rewrite (load_upload_returns _ _ _ _ _ _ _ _ _ _ _ Hc Hr Hu), Htr.
      exists (State (close c w')
                (trace s ++ Connected c
                   :: Printed (starting_message file_path table_name)
                   :: ReadCsv file_path :: WritePandas c table_name
                   :: (if success then [Printed (success_message nrows table_name)]
                       else []) ++ [Closed c])),
        (Connected c :: Printed (starting_message file_path table_name)
           :: ReadCsv file_path :: WritePandas c table_name
           :: (if success then [Printed (success_message nrows table_name)]
               else []) ++ [Closed c]).
      split; [by rewrite <- (app_assoc (trace s)) |].
      split; [done |].
      split; [destruct success; constructor |].
      split; [by destruct success |].
      intros e' [(? & ?) | (? & ? & ? & ? & ?)]; congruence.
    + assert (is_Exception e = true) as He.
      { apply Hcaught. right. by exists df, w, w'. }
      rewrite (load_upload_raises _ _ _ _ _ _ _ _ _ Hc Hr Hu), Htr, He.
      exists (State (close c w')
                (trace s ++ [Connected c; Printed (starting_message file_path table_name);
                             ReadCsv file_path; WritePandas c table_name;
                             Printed (error_message e); Closed c])),
        [Connected c; Printed (starting_message file_path table_name);
         ReadCsv file_path; WritePandas c table_name;
         Printed (error_message e); Closed c].
      split; [by rewrite <- (app_assoc (trace s)) |].
      split; [done |]. split; [constructor |]. split; [done |].
      intros e' [(? & ?) | (? & ? & ? & ? & ?)]; [congruence |].
      assert (e' = e) as -> by congruence. reflexivity.
  - assert (is_Exception e = true) as He.
    { apply Hcaught. left. by exists w. }
    rewrite (load_read_raises _ table_name _ _ _ _ _ Hc Hr), Htr, He.
    exists (State (close c w)
              (trace s ++ [Connected c; Printed (starting_message file_path table_name);
                           ReadCsv file_path; Printed (error_message e); Closed c])),
      [Connected c; Printed (starting_message file_path table_name);
       ReadCsv file_path; Printed (error_message e); Closed c].
    split; [by rewrite <- (app_assoc (trace s)) |].
    split; [done |]. split; [constructor |]. split; [done |].
    intros e' [(? & ?) | (? & ? & ? & ? & ?)]; [| congruence].
    assert (e' = e) as -> by congruence. reflexivity.
Qed.

(** C1, as the code has it.  Once an operation has acquired its
    connection, the read error or upload error of that operation, when it
    derives from [Exception], is caught inside the operation and logged
    there with its description; the operation then closes its connection
    and returns normally.  A connection error is raised before the [try]
    block: it leaves the operation uncaught and unlogged.  Hence in a run
    of the entry point in which each of the three connections is acquired
    and the error of each operation, if any, derives from [Exception], all
    three operations run to completion, whichever of them fail, each error
    being logged by its own operation.  The premises are about the run at
    hand: [s1'] and [s2'] are the states in which the first and the second
    operation leave it. *)
Theorem read_and_upload_errors_isolated :
  (∀ file_path table_name s c s1,
      get_snowflake_connection s = (Ok c, s1) →
      raises_only_Exception file_path table_name c s1 →
      ∃ s' seg,
        load_csv_to_snowflake file_path table_name s = (Ok tt, s')
        ∧ trace s' = trace s ++ seg
        ∧ load_trace file_path table_name seg
        ∧ last seg = Some (Closed c)
        ∧ ∀ e, raised_in_try file_path table_name c s1 e →
               last (printed seg) = Some (error_message e))
  ∧ (∀ file_path table_name s e s1,
      get_snowflake_connection s = (Raise e, s1) →
      load_csv_to_snowflake file_path table_name s = (Raise e, s1)
      ∧ trace s1 = trace s)
  ∧ (∀ s c1 s1 r1 s1' c2 s2 r2 s2' c3 s3,
      get_snowflake_connection s = (Ok c1, s1) →
      raises_only_Exception "./data/transaction_data.csv" "TRANSACTIONS" c1 s1 →
      load_csv_to_snowflake "./data/transaction_data.csv" "TRANSACTIONS" s = (r1, s1') →
      get_snowflake_connection s1' = (Ok c2, s2) →
      raises_only_Exception "./data/product.csv" "PRODUCTS" c2 s2 →
      load_csv_to_snowflake "./data/product.csv" "PRODUCTS" s1' = (r2, s2') →
      get_snowflake_connection s2' = (Ok c3, s3) →
      raises_only_Exception "./data/hh_demographic.csv" "DEMOGRAPHICS" c3 s3 →
      ∃ s' seg1 seg2 seg3,
        main s = (Ok tt, s')
        ∧ r1 = Ok tt ∧ r2 = Ok tt
        ∧ trace s1' = trace s ++ seg1
        ∧ trace s2' = trace s ++ seg1 ++ seg2
        ∧ trace s' = trace s ++ seg1 ++ seg2 ++ seg3
        ∧ load_trace "./data/transaction_data.csv" "TRANSACTIONS" seg1
        ∧ load_trace "./data/product.csv" "PRODUCTS" seg2
        ∧ load_trace "./data/hh_demographic.csv" "DEMOGRAPHICS" seg3
        ∧ (∀ e, raised_in_try "./data/transaction_data.csv" "TRANSACTIONS" c1 s1 e →
                last (printed seg1) = Some (error_message e))
        ∧ (∀ e, raised_in_try "./data/product.csv" "PRODUCTS" c2 s2 e →
                last (printed seg2) = Some (error_message e))
        ∧ (∀ e, raised_in_try "./data/hh_demographic.csv" "DEMOGRAPHICS" c3 s3 e →
                last (printed seg3) = Some (error_message e))).
Proof.
  split; [apply load_completes |]. split.
  - intros file_path table_name s e s1 Hc.
    split; [by apply load_connect_raises |].
    revert Hc. unfold get_snowflake_connection, os_getenv, call, emit, py_modify.
    unfold mbind, Py_bind, py_bind, mret, Py_ret, py_ret. simpl.
    destruct (connect _ _) as [[c'|e'] w]; [done |]. by intros [= <- <-].
  - intros s c1 s1 r1 s1' c2 s2 r2 s2' c3 s3 Hc1 He1 Hr1 Hc2 He2 Hr2 Hc3 He3.
    destruct (load_completes _ _ _ _ _ Hc1 He1) as (t1 & seg1 & Hl1 & Ht1 & Hs1 & _ & Hlog1).
    rewrite Hl1 in Hr1. injection Hr1 as <- <-.
    destruct (load_completes _ _ _ _ _ Hc2 He2) as (t2 & seg2 & Hl2 & Ht2 & Hs2 & _ & Hlog2).
    rewrite Hl2 in Hr2. injection Hr2 as <- <-.
    destruct (load_completes _ _ _ _ _ Hc3 He3) as (t3 & seg3 & Hl3 & Ht3 & Hs3 & _ & Hlog3).
    exists t3, seg1, seg2, seg3. unfold main.
    rewrite (bind_ok _ _ _ _ _ Hl1), (bind_ok _ _ _ _ _ Hl2), Hl3.
    split; [done |]. split; [done |]. split; [done |]. split; [done |].
    split; [by rewrite Ht2, Ht1, <- (app_assoc (trace s)) |].
    split; [by rewrite Ht3, Ht2, Ht1, <- !(app_assoc (trace s)), <- (app_assoc seg1) |].
    done.
Qed.

End LoaderIsolation.

(** *** The loader on the sample warehouse *)

Section LoaderRuns.
Import Loader.

(** The second of the three connection attempts raises an error that
    derives from [Exception].  It is not caught and not logged: the run
    ends with that exception, and after the two lines of the first
    operation nothing is printed, so the third operation never starts. *)
Lemma connection_error_aborts_run :
  (run (E := Sample.refusing) Sample.fresh).1
  = Raise (PyExn true "could not connect to the warehouse")
  ∧ printed (E := Sample.refusing) (trace (run (E := Sample.refusing) Sample.fresh).2)
    = ["Starting ingestion for: ./data/transaction_data.csv into table TRANSACTIONS";
       "Successfully ingested 10 rows into TRANSACTIONS"].
Proof. split; vm_compute; reflexivity. Qed.

Ltac sample_try_block :=
  intros e [(w & Hr) | (df & w & w' & Hr & Hu)];
  [vm_compute in Hr | vm_compute in Hr; vm_compute in Hu];
  first [discriminate Hr | discriminate Hu
         | injection Hu as <- _; reflexivity
         | injection Hr as <- _; reflexivity].

(** Two runs.  On a warehouse that accepts only three connections, the
    upload of the second operation raises; all three operations run to
    their end and the second one logs the error.  Where the product file
    cannot be read and uploads would be interrupted, the read error of the
    operation on the product file is caught and logged. *)
Lemma read_and_upload_errors_isolated_witness :
  (∃ s' seg1 seg2 seg3,
      main (E := Sample.three_connections)
        (State (E := Sample.three_connections) Sample.fresh []) = (Ok tt, s')
      ∧ trace s' = [] ++ seg1 ++ seg2 ++ seg3
      ∧ load_trace "./data/transaction_data.csv" "TRANSACTIONS" seg1
      ∧ load_trace "./data/product.csv" "PRODUCTS" seg2
      ∧ load_trace "./data/hh_demographic.csv" "DEMOGRAPHICS" seg3
      ∧ last (printed seg2) = Some (error_message (PyExn true "upload failed")))
  ∧ (∃ s' seg,
      load_csv_to_snowflake (E := Sample.unreadable_and_interrupted)
        "./data/product.csv" "PRODUCTS"
        (State (E := Sample.unreadable_and_interrupted) Sample.fresh [])
      = (Ok tt, s')
      ∧ trace s' = [] ++ seg
      ∧ last (printed seg)
        = Some (error_message
                  (PyExn true "No such file or directory: ./data/product.csv"))).
Proof.
  split.
  - destruct (read_and_upload_errors_isolated (E := Sample.three_connections))
      as (_ & _ & Hmain).
    destruct (Hmain (State (E := Sample.three_connections) Sample.fresh [])
                0%nat Sample.first_connected (Ok tt) Sample.first_done
                1%nat Sample.second_connected (Ok tt) Sample.second_done
                2%nat Sample.third_connected)
      as (s' & seg1 & seg2 & seg3 & Hrun & _ & _ & _ & _ & Htr & H1 & H2 & H3
          & _ & Hlog & _).
    + vm_compute. reflexivity.
    + sample_try_block.
    + vm_compute. reflexivity.
    + vm_compute. reflexivity.
    + sample_try_block.
    + vm_compute. reflexivity.
    + vm_compute. reflexivity.
    + sample_try_block.
    + exists s', seg1, seg2, seg3. repeat (split; [assumption |]).
      apply Hlog. right.
      exists "./data/product.csv", (Sample.WarehouseWorld 2 [0%nat]),
        (Sample.WarehouseWorld 2 [0%nat]).
      split; vm_compute; reflexivity.
  - destruct (read_and_upload_errors_isolated (E := Sample.unreadable_and_interrupted))
      as (Hload & _ & _).
    destruct (Hload "./data/product.csv" "PRODUCTS"
                (State (E := Sample.unreadable_and_interrupted) Sample.fresh [])
                0%nat
                (State (E := Sample.unreadable_and_interrupted)
                   (Sample.WarehouseWorld 1 [])
                   [Connected (E := Sample.unreadable_and_interrupted) 0%nat]))
      as (s' & seg & Hrun & Htr & _ & _ & Hlog).
    + vm_compute. reflexivity.
    + sample_try_block.
    + exists s', seg. split; [assumption |]. split; [assumption |].
      apply Hlog. left. exists (Sample.WarehouseWorld 1 []). vm_compute. reflexivity.
Defined.

Lemma connection_closed_on_every_exit_witness :
  get_snowflake_connection (E := Sample.unreadable_product) (State (E := Sample.unreadable_product) Sample.fresh [])
  = (Ok (0%nat : connection (Env := Sample.unreadable_product)),
     State (E := Sample.unreadable_product) (Sample.WarehouseWorld 1 [])
       [Connected (E := Sample.unreadable_product) 0%nat])
  ∧ ∃ r w before,
      load_csv_to_snowflake (E := Sample.unreadable_product)
        "./data/product.csv" "PRODUCTS" (State (E := Sample.unreadable_product) Sample.fresh [])
      = (r, State (close (Env := Sample.unreadable_product) 0%nat w)
              ([] ++ Connected (E := Sample.unreadable_product) 0%nat
                  :: before ++ [Closed (E := Sample.unreadable_product) 0%nat]))
      ∧ Forall (λ ev, ∀ c', ev ≠ Closed c' ∧ ev ≠ Connected c') before.
Proof.
  split; [reflexivity |].
  apply (connection_closed_on_every_exit (E := Sample.unreadable_product) _ _
           (State (E := Sample.unreadable_product) Sample.fresh []) 0%nat
           (State (E := Sample.unreadable_product) (Sample.WarehouseWorld 1 [])
              [Connected (E := Sample.unreadable_product) 0%nat])).
  reflexivity.
Defined.

Lemma unsuccessful_upload_is_silent_witness :
  ∃ tr,
    load_csv_to_snowflake (E := Sample.unsuccessful_upload)
      "./data/product.csv" "PRODUCTS" (State (E := Sample.unsuccessful_upload) Sample.fresh [])
    = (Ok tt, State (close (Env := Sample.unsuccessful_upload) 0%nat
                       (Sample.WarehouseWorld 1 [])) ([] ++ tr))
    ∧ printed tr = [starting_message "./data/product.csv" "PRODUCTS"]
    ∧ Forall (λ line, is_success_message line = false
                      ∧ is_error_message line = false) (printed tr)
    ∧ last tr = Some (Closed (E := Sample.unsuccessful_upload) 0%nat).
Proof.
  apply (unsuccessful_upload_is_silent (E := Sample.unsuccessful_upload)
           "./data/product.csv" "PRODUCTS"
           (State (E := Sample.unsuccessful_upload) Sample.fresh []) 0%nat
           (State (E := Sample.unsuccessful_upload) (Sample.WarehouseWorld 1 [])
              [Connected (E := Sample.unsuccessful_upload) 0%nat])
           "./data/product.csv" (Sample.WarehouseWorld 1 []) 0 0
           (Sample.WarehouseWorld 1 []));
    reflexivity.
Defined.

End LoaderRuns.

(** ** The generator *)

Section EnsuresFacts.
Context {S : Type}.

Lemma ensures_ret {A} (a : A) (P : A → Prop) :
  P a → ensures (S := S) (mret a) P.
Proof. intros Ha s. by exists a, s. Qed.

Lemma ensures_bind {A B} (m : Py S A) (k : A → Py S B) (P : A → Prop) (Q : B → Prop) :
  ensures m P → (∀ a, P a → ensures (k a) Q) → ensures (m ≫= k) Q.
Proof.
  intros Hm Hk s. destruct (Hm s) as (a & s1 & Hrun & Ha).
  rewrite (bind_ok _ _ _ _ _ Hrun). by apply Hk.
Qed.

Lemma ensures_weaken {A} (m : Py S A) (P Q : A → Prop) :
  ensures m P → (∀ a, P a → Q a) → ensures m Q.
Proof.
  intros Hm HPQ s. destruct (Hm s) as (a & s1 & Hrun & Ha). eauto.
Qed.

Lemma ensures_modify (f : S → S) (P : unit → Prop) :
  P tt → ensures (py_modify f) P.
Proof. intros HP s. by exists tt, (f s). Qed.

(** The loop runs every iteration and collects one value for each. *)
Lemma ensures_for_append {A B} (xs : list A) (body : A → Py S B) (Q : A → B → Prop) :
  (∀ x, x ∈ xs → ensures (body x) (Q x)) →
  ensures (for_append xs body) (Forall2 Q xs).
Proof.
  induction xs as [| x xs IH]; intros Hbody; simpl.
  - apply ensures_ret. constructor.
  - eapply ensures_bind; [apply Hbody; left |]. intros y Hy.
    eapply ensures_bind; [apply IH; intros; apply Hbody; by right |].
    intros ys Hys. apply ensures_ret. by constructor.
Qed.

End EnsuresFacts.

Section NumpyFacts.
Import Generator.
Context {R : Random} (HR : random_contract R).

Lemma ensures_draw {A} (f : rng → A * rng) (P : A → Prop) :
  (∀ g, P (f g).1) → ensures (draw f) P.
Proof.
  intros Hf s. unfold draw. specialize (Hf (random_state s)).
  destruct (f (random_state s)) as [a g]. eauto.
Qed.

Lemma ensures_item {A} (xs : list A) (i : nat) :
  (i < length xs)%nat → ensures (item xs i) (λ x, xs !! i = Some x).
Proof.
  intros Hi. unfold item. destruct (lookup_lt_is_Some_2 xs i Hi) as [x Hx].
  rewrite Hx. by apply ensures_ret.
Qed.

Lemma ensures_iloc {A} (df : list A) (i : nat) :
  (i < length df)%nat → ensures (iloc df i) (λ x, df !! i = Some x).
Proof.
  intros Hi. unfold iloc. destruct (lookup_lt_is_Some_2 df i Hi) as [x Hx].
  rewrite Hx. by apply ensures_ret.
Qed.

Lemma ensures_choice {A} (a : list A) :
  a ≠ [] → ensures (np_random_choice a) (λ x, x ∈ a).
Proof.
  intros Ha. unfold np_random_choice. destruct a as [| x0 a']; [done |].
  eapply ensures_bind.
  - apply (ensures_draw _ (λ i, (i < length (x0 :: a'))%nat)).
    intros g. apply (choice_range R HR). simpl. lia.
  - intros i Hi. cbv beta in Hi.
    eapply ensures_weaken; [by apply ensures_item |].
    intros x Hx. exact (list_elem_of_lookup_2 _ _ _ Hx).
Qed.

Lemma ensures_picks {A} (a : list A) (picks : list nat) :
  Forall (λ i, (i < length a)%nat) picks →
  ensures (for_append picks (item a))
    (λ xs, length xs = length picks ∧ Forall (λ x, x ∈ a) xs).
Proof.
  intros Hpicks.
  eapply ensures_weaken.
  - apply (ensures_for_append picks (item a) (λ i x, a !! i = Some x)).
    intros i Hi. apply ensures_item. by eapply (proj1 (Forall_forall _ _) Hpicks).
  - intros xs Hxs. split; [symmetry; by eapply Forall2_length |].
    eapply Forall2_Forall_r; [exact Hxs |].
    apply Forall_forall. intros i _ x Hx. exact (list_elem_of_lookup_2 _ _ _ Hx).
Qed.

Lemma ensures_choice_size {A} (a : list A) (size : nat) :
  a ≠ [] →
  ensures (np_random_choice_size a size)
    (λ xs, length xs = size ∧ Forall (λ x, x ∈ a) xs).
Proof.
  intros Ha. unfold np_random_choice_size. destruct a as [| x0 a']; [done |].
  assert (0 < length (x0 :: a'))%nat as Hlen by (simpl; lia).
  eapply ensures_bind.
  - apply (ensures_draw _ (λ picks, length picks = size
                           ∧ Forall (λ i, (i < length (x0 :: a'))%nat) picks)).
    intros g. split;
      [by apply (choice_size_length R HR) | by apply (choice_size_range R HR)].
  - intros picks [Hl Hr]. eapply ensures_weaken; [by apply ensures_picks |].
    intros xs [Hxs ?]. split; [congruence | done].
Qed.

Lemma ensures_choice_size_p {A} (a : list A) (size : nat) (p : list Q) :
  a ≠ [] → length p = length a →
  ensures (np_random_choice_size_p a size p)
    (λ xs, length xs = size ∧ Forall (λ x, x ∈ a) xs).
Proof.
  intros Ha Hp. unfold np_random_choice_size_p. destruct a as [| x0 a']; [done |].
  assert (0 < length (x0 :: a'))%nat as Hlen by (simpl; lia).
  rewrite decide_True by done.
  eapply ensures_bind.
  - apply (ensures_draw _ (λ picks, length picks = size
                           ∧ Forall (λ i, (i < length (x0 :: a'))%nat) picks)).
    intros g. split;
      [by apply (choice_size_p_length R HR) | by apply (choice_size_p_range R HR)].
  - intros picks [Hl Hr]. eapply ensures_weaken; [by apply ensures_picks |].
    intros xs [Hxs ?]. split; [congruence | done].
Qed.

Lemma ensures_randint (low high : Z) :
  low < high → ensures (np_random_randint low high) (λ n, low ≤ n < high).
Proof.
  intros Hlh. unfold np_random_randint. rewrite decide_True by done.
  apply ensures_draw. intros g. by apply (randint_range R HR).
Qed.

Lemma ensures_uniform (low high : Q) :
  (low < high)%Q →
  ensures (np_random_uniform low high) (λ x, (low <= x)%Q ∧ (x < high)%Q).
Proof.
  intros Hlh. apply ensures_draw. intros g. by apply (uniform_range R HR).
Qed.

Lemma ensures_rand :
  ensures np_random_rand (λ x, (0 <= x)%Q ∧ (x < 1)%Q).
Proof. apply ensures_draw. intros g. apply (rand_range R HR). Qed.

Lemma ensures_sample_1 {A} (df : list A) :
  df ≠ [] → ensures (sample_1 df) (λ smp, ∃ row, smp = [row] ∧ row ∈ df).
Proof.
  intros Hdf. unfold sample_1. destruct df as [| r0 df']; [done |].
  eapply ensures_bind.
  - apply (ensures_draw _ (λ i, (i < length (r0 :: df'))%nat)).
    intros g. apply (sample_position_range R HR). simpl. lia.
  - intros i Hi. cbv beta in Hi. eapply ensures_bind; [by apply ensures_item |].
    intros row Hrow. apply ensures_ret. exists row. split; [done |].
    exact (list_elem_of_lookup_2 _ _ _ Hrow).
Qed.

End NumpyFacts.

Section FloatFacts.
Import Generator.
Context {F : Float} (HF : float_contract F).

Lemma fl_proper (x y : Q) : (x == y)%Q → (fl x == fl y)%Q.
Proof.
  intros Hxy. apply Qle_antisym; apply (fl_monotone F HF); rewrite Hxy; apply Qle_refl.
Qed.

Lemma fl_integer (n : Z) : Z.abs n ≤ 2 ^ 53 → (fl (inject_Z n) == inject_Z n)%Q.
Proof.
  intros Hn. pose proof (fl_exact F HF n 0 Hn ltac:(lia)) as H.
  assert (inject_Z n / inject_Z (2 ^ Z.of_nat 0) == inject_Z n)%Q as Heq.
  { change (inject_Z (2 ^ Z.of_nat 0)) with 1%Q. unfold Qdiv.
    change (/ 1)%Q with 1%Q. apply Qmult_1_r. }
  rewrite <- Heq at 2. rewrite <- H. apply fl_proper. by rewrite Heq.
Qed.

Lemma fl_three_halves : (fl (15 # 10) == 15 # 10)%Q.
Proof.
  pose proof (fl_exact F HF 3 1 ltac:(lia) ltac:(lia)) as H.
  assert (inject_Z 3 / inject_Z (2 ^ Z.of_nat 1) == 15 # 10)%Q as Heq by reflexivity.
  rewrite <- Heq at 2. rewrite <- H. apply fl_proper. by rewrite Heq.
Qed.

(** Rounding a real between two integers stays between them. *)
Lemma fl_between (a b : Z) (x : Q) :
  Z.abs a ≤ 2 ^ 53 → Z.abs b ≤ 2 ^ 53 →
  (inject_Z a <= x)%Q → (x <= inject_Z b)%Q →
  (inject_Z a <= fl x)%Q ∧ (fl x <= inject_Z b)%Q.
Proof.
  intros Ha Hb Hax Hxb. split.
  - rewrite <- (fl_integer a Ha). by apply (fl_monotone F HF).
  - rewrite <- (fl_integer b Hb). by apply (fl_monotone F HF).
Qed.

Lemma round_half_even_between (a b : Z) (x : Q) :
  (inject_Z a <= x)%Q → (x <= inject_Z b)%Q →
  a ≤ round_half_even x ∧ round_half_even x ≤ b.
Proof.
  intros Hax Hxb. unfold round_half_even.
  assert (a ≤ Qfloor x) as Hfa.
  { rewrite <- (Qfloor_Z a). by apply Qfloor_resp_le. }
  assert (Qfloor x ≤ b) as Hfb.
  { rewrite <- (Qfloor_Z b). by apply Qfloor_resp_le. }
  assert (Qfloor x = b → (x - inject_Z (Qfloor x) ?= 1 # 2)%Q = Lt) as Htop.
  { intros Heq. rewrite Heq. apply Qlt_alt.
    apply Qle_lt_trans with (y := 0%Q); [| reflexivity].
    apply (Qplus_le_l _ _ (inject_Z b)). ring_simplify. exact Hxb. }
  destruct (decide (Qfloor x = b)) as [Heq | Hne].
  - rewrite (Htop Heq). lia.
  - destruct (x - inject_Z (Qfloor x) ?= 1 # 2)%Q; [destruct (Z.even _) | |]; lia.
Qed.

(** [round(x, 2)] of a float between two integers stays between them. *)
Lemma py_round_between (a b : Z) (x : Q) :
  Z.abs a ≤ 2 ^ 53 → Z.abs b ≤ 2 ^ 53 →
  (inject_Z a <= x)%Q → (x <= inject_Z b)%Q →
  (inject_Z a <= py_round x 2)%Q ∧ (py_round x 2 <= inject_Z b)%Q.
Proof.
  intros Ha Hb Hax Hxb. unfold py_round.
  change (inject_Z (10 ^ Z.of_nat 2)) with (inject_Z 100).
  destruct (round_half_even_between (a * 100) (b * 100) (x * inject_Z 100)) as [Hlo Hhi].
  { rewrite inject_Z_mult. apply Qmult_le_compat_r; [done | discriminate]. }
  { rewrite inject_Z_mult. apply Qmult_le_compat_r; [done | discriminate]. }
  apply fl_between; [done | done | |].
  - apply Qle_shift_div_l; [reflexivity |]. rewrite <- inject_Z_mult.
    by rewrite <- Zle_Qle.
  - apply Qle_shift_div_r; [reflexivity |]. rewrite <- inject_Z_mult.
    by rewrite <- Zle_Qle.
Qed.

(** Lines 93 to 109 of the script in numbers: a unit price in [1, 15] and a
    quantity in 1..5 give a sales value between the quantity and 15 times
    the quantity. *)
Lemma sales_value_between (price : Q) (quantity : Z) :
  (1 <= price)%Q → (price <= 15)%Q → 1 ≤ quantity ≤ 5 →
  (inject_Z quantity <= py_round (float_mul price (float_of_int quantity)) 2)%Q
  ∧ (py_round (float_mul price (float_of_int quantity)) 2
     <= inject_Z (15 * quantity))%Q.
Proof.
  intros Hp1 Hp15 Hq.
  assert (float_of_int quantity == inject_Z quantity)%Q as Hfq
    by (apply fl_integer; lia).
  assert (0 <= inject_Z quantity)%Q as Hq0.
  { change 0%Q with (inject_Z 0). rewrite <- Zle_Qle. lia. }
  apply py_round_between; [lia | lia | |]; unfold float_mul.
  - apply fl_between with (b := 15 * quantity); [lia | lia | |]; rewrite Hfq.
    + rewrite <- (Qmult_1_l (inject_Z quantity)) at 1.
      by apply Qmult_le_compat_r.
    + rewrite inject_Z_mult. by apply Qmult_le_compat_r.
  - apply fl_between with (a := quantity); [lia | lia | |]; rewrite Hfq.
    + rewrite <- (Qmult_1_l (inject_Z quantity)) at 1.
      by apply Qmult_le_compat_r.
    + rewrite inject_Z_mult. by apply Qmult_le_compat_r.
Qed.

End FloatFacts.

Section TableFacts.
Import Generator.
Context {R : Random} {F : Float}.
Context {CsvH : Csv household} {CsvP : Csv Product.t} {CsvT : Csv Transaction.t}.
Context (HR : random_contract R) (HF : float_contract F).

Lemma DataFrame_of_columns_ok
  (key : list Z) (age marital income homeowner comp size kid : list string) :
  length age = length key → length marital = length key →
  length income = length key → length homeowner = length key →
  length comp = length key → length size = length key →
  length kid = length key →
  ensures (DataFrame_of_columns key age marital income homeowner comp size kid)
    (Forall2 (λ k h, household_key h = k) key).
Proof.
  intros Ha Hm Hi Hh Hc Hs Hk. unfold DataFrame_of_columns.
  rewrite decide_True by (repeat constructor; done).
  eapply ensures_weaken.
  - apply (ensures_for_append _ _ (λ i h, key !! i = Some (household_key h))).
    intros i Hin%elem_of_seq.
    eapply ensures_bind; [apply ensures_item; lia |]. intros k Hkey.
    eapply ensures_bind; [apply ensures_item; lia |]. intros ? _.
    eapply ensures_bind; [apply ensures_item; lia |]. intros ? _.
    eapply ensures_bind; [apply ensures_item; lia |]. intros ? _.
    eapply ensures_bind; [apply ensures_item; lia |]. intros ? _.
    eapply ensures_bind; [apply ensures_item; lia |]. intros ? _.
    eapply ensures_bind; [apply ensures_item; lia |]. intros ? _.
    eapply ensures_bind; [apply ensures_item; lia |]. intros ? _.
    by apply ensures_ret.
  - intros df Hdf. apply Forall2_same_length_lookup_2.
    + apply Forall2_length in Hdf. by rewrite length_seq in Hdf.
    + intros i k h Hk' Hh'.
      assert (seq 0 (length key) !! i = Some i) as Hseq.
      { apply lookup_seq. split; [done |]. by eapply lookup_lt_Some. }
      pose proof (Forall2_lookup_lr _ _ _ _ _ _ Hdf Hseq Hh') as Hrow.
      simpl in Hrow. congruence.
Qed.

Lemma make_demo_df_ok :
  ensures make_demo_df (Forall2 (λ k h, household_key h = k) (seqZ 1 100)).
Proof.
  unfold make_demo_df.
  eapply ensures_bind; [by apply (ensures_choice_size HR) |]. intros age [Ha _].
  eapply ensures_bind; [by apply (ensures_choice_size HR) |]. intros marital [Hm _].
  eapply ensures_bind; [by apply (ensures_choice_size_p HR) |]. intros income [Hi _].
  eapply ensures_bind; [by apply (ensures_choice_size HR) |]. intros homeowner [Hh _].
  eapply ensures_bind; [by apply (ensures_choice_size HR) |]. intros comp [Hc _].
  eapply ensures_bind; [by apply (ensures_choice_size HR) |]. intros size [Hs _].
  eapply ensures_bind; [by apply (ensures_choice_size HR) |]. intros kid [Hk _].
  apply DataFrame_of_columns_ok; by rewrite ?length_seqZ.
Qed.

(** Every department has an entry in [commodities], and the entry is not
    empty. *)
Lemma commodities_of_department (dept : string) :
  dept ∈ departments → ∃ valid, commodities !! dept = Some valid ∧ valid ≠ [].
Proof.
  assert (Forall (λ d, ∃ v, commodities !! d = Some v ∧ v ≠ []) departments) as Hall.
  { unfold departments.
    repeat constructor; (eexists; split; [vm_compute; reflexivity | done]). }
  intros Hin. exact (proj1 (Forall_forall _ _) Hall dept Hin).
Qed.

Lemma product_body_ok (i : Z) : ensures (product_body i) (product_row i).
Proof.
  unfold product_body.
  eapply ensures_bind; [by apply (ensures_choice HR) |]. intros dept Hdept.
  destruct (commodities_of_department dept Hdept) as (valid & Hvalid & Hne).
  unfold getitem. rewrite Hvalid.
  eapply ensures_bind;
    [apply (ensures_ret valid (λ v, v = valid)); reflexivity |].
  intros ? ->.
  eapply ensures_bind; [by apply (ensures_choice HR) |]. intros comm Hcomm.
  eapply ensures_bind; [by apply (ensures_randint HR) |]. intros manufacturer _.
  eapply ensures_bind; [by apply (ensures_choice HR) |]. intros brand _.
  eapply ensures_bind; [by apply (ensures_randint HR) |]. intros size _.
  apply ensures_ret. split; simpl; eauto.
Qed.

Lemma make_product_df_ok :
  ensures make_product_df (Forall2 product_row (seqZ 1 50)).
Proof.
  apply ensures_for_append. intros i _. apply product_body_ok.
Qed.

End TableFacts.

Section ScriptFacts.
Import Generator.
Context {R : Random} {F : Float}.
Context {CsvH : Csv household} {CsvP : Csv Product.t} {CsvT : Csv Transaction.t}.
Context (HR : random_contract R) (HF : float_contract F).

(** Pattern B of the script: households with kids buy more. *)
Lemma ensures_kids_extra (kid : string) (qty : Z) :
  ensures
    (if decide (kid ≠ "None/Unknown")
     then extra ← np_random_randint 1 3; mret (qty + extra)
     else mret qty)
    (λ q, ∃ extra, q = qty + extra
          ∧ if decide (kid = "None/Unknown") then extra = 0 else 1 ≤ extra ≤ 2).
Proof.
  destruct (decide (kid ≠ "None/Unknown")) as [Hkid | Hkid].
  - eapply ensures_bind; [by apply (ensures_randint HR) |].
    intros extra Hextra. cbv beta in Hextra. apply ensures_ret.
    exists extra. split; [done |]. rewrite decide_False by done. lia.
  - apply ensures_ret. exists 0. split; [lia |].
    rewrite decide_True; [done |]. by destruct (decide (kid = "None/Unknown")).
Qed.

(** Pattern C of the script: the weekend spike. *)
Lemma ensures_weekend_bonus (weekend : bool) (qty : Z) :
  ensures
    (if weekend
     then r ← np_random_rand;
          if float_lt r (float_literal (2 # 10)) then mret (qty + 1) else mret qty
     else mret qty)
    (λ q, ∃ bonus, q = qty + bonus ∧ 0 ≤ bonus ≤ 1 ∧ (weekend = false → bonus = 0)).
Proof.
  destruct weekend.
  - eapply ensures_bind; [apply (ensures_rand HR) |]. intros r _.
    destruct (float_lt r (float_literal (2 # 10))); apply ensures_ret.
    + exists 1. split; [done |]. split; [lia | done].
    + exists 0. split; [lia |]. split; [lia | done].
  - apply ensures_ret. exists 0. split; [lia |]. split; [lia | done].
Qed.

Lemma ensures_base_price :
  ensures (np_random_uniform (float_literal 1) (float_literal 10))
    (λ x, (1 <= x)%Q ∧ (x < 10)%Q).
Proof.
  assert (float_literal 1 == 1)%Q as H1 by (apply (fl_integer HF 1); lia).
  assert (float_literal 10 == 10)%Q as H10 by (apply (fl_integer HF 10); lia).
  eapply ensures_weaken.
  - apply (ensures_uniform HR). rewrite H1, H10. reflexivity.
  - intros x [Hlo Hhi]. cbv beta in Hlo, Hhi. rewrite H1 in Hlo. rewrite H10 in Hhi. done.
Qed.

Lemma transaction_body_ok
  (demo_df : list household) (product_df : list Product.t) (i : Z) :
  demo_df ≠ [] → product_df ≠ [] →
  ensures (transaction_body demo_df product_df i)
    (λ lt, iteration demo_df product_df i lt.1 lt.2).
Proof.
  intros Hdemo Hproduct. unfold transaction_body.
  eapply ensures_bind.
  { apply (ensures_choice HR). unfold index. by destruct demo_df. }
  intros hh_idx Hidx%elem_of_seq.
  eapply ensures_bind; [apply ensures_iloc; lia |]. intros h Hh.
  apply list_elem_of_lookup_2 in Hh.
  eapply ensures_bind; [by apply (ensures_sample_1 HR) |].
  intros sampled (row & -> & Hrow).
  eapply ensures_bind; [apply ensures_iloc; simpl; lia |]. intros p [= <-].
  eapply ensures_bind; [by apply (ensures_randint HR) |].
  intros offset Hdays. cbv beta zeta in Hdays |- *.
  eapply ensures_bind; [apply ensures_base_price |].
  intros drawn [Hd1 Hd10]. cbv beta zeta.
  eapply ensures_bind; [by apply (ensures_randint HR) |].
  intros base Hbase. cbv beta in Hbase.
  eapply ensures_bind; [apply ensures_kids_extra |].
  intros qty1 (extra & -> & Hextra).
  eapply ensures_bind; [apply ensures_weekend_bonus |].
  intros qty2 (bonus & -> & Hbonus & Hweekday). cbv beta zeta.
  eapply ensures_bind; [by apply (ensures_choice HR) |]. intros store_id _.
  eapply ensures_bind; [apply (ensures_rand HR) |]. intros r _.
  eapply ensures_bind; [by apply (ensures_randint HR) |]. intros trans_time _.
  apply ensures_ret. split; cbn [fst snd hh prod days_offset trans_date is_weekend
    base_price qty sales_value Transaction.HOUSEHOLD_KEY Transaction.BASKET_ID
    Transaction.DAY Transaction.PRODUCT_ID Transaction.QUANTITY
    Transaction.SALES_VALUE Transaction.WEEK_NO]; try done.
  - exists drawn. unfold unit_price, high_income. cbn [hh base_price].
    split; [done |]. split; [done | reflexivity].
  - exists base, extra, bonus. unfold quantity_parts. cbn [hh qty is_weekend].
    split; [reflexivity |]. split; [lia |]. split; [done |]. split; done.
Qed.

(** The script runs to its end from every store, and leaves the three
    tables as the vocabulary above describes them. *)
Lemma demo_data_gen_ok : ensures demo_data_gen generated_tables.
Proof.
  unfold demo_data_gen, np_random_seed, to_csv, print.
  eapply ensures_bind; [by apply (ensures_modify _ (λ _, True)) |]. intros _ _.
  eapply ensures_bind; [apply (make_demo_df_ok HR) |]. intros demo Hdemo.
  eapply ensures_bind; [apply (make_product_df_ok HR) |]. intros product Hproduct.
  assert (demo ≠ []) as Hdemo_ne.
  { apply Forall2_length in Hdemo. rewrite length_seqZ in Hdemo.
    intros ->. simpl in Hdemo. lia. }
  assert (product ≠ []) as Hproduct_ne.
  { apply Forall2_length in Hproduct. rewrite length_seqZ in Hproduct.
    intros ->. simpl in Hproduct. lia. }
  eapply ensures_bind.
  { apply (ensures_for_append _ _
             (λ i lt, iteration demo product i lt.1 lt.2)).
    intros i _. by apply transaction_body_ok. }
  intros rows Hrows. cbv beta zeta.
  do 4 (eapply ensures_bind;
          [by apply (ensures_modify _ (λ _, True)) |]; intros _ _).
  apply ensures_ret. by split.
Qed.

End ScriptFacts.

(** *** The sample random state and the exact floats keep the contracts *)

Section SampleFacts.
Import Generator.

Lemma lcg_picks_length (n k : nat) (g : Z) :
  length (Sample.lcg_picks n k g).1 = k.
Proof.
  revert g. induction k as [| k IH]; intros g; simpl; [done |].
  specialize (IH (Sample.lcg_next g)).
  destruct (Sample.lcg_picks n k (Sample.lcg_next g)) as [rest g']. simpl in *. lia.
Qed.

Lemma lcg_picks_range (n k : nat) (g : Z) :
  (0 < n)%nat → Forall (λ i, (i < n)%nat) (Sample.lcg_picks n k g).1.
Proof.
  intros Hn. revert g. induction k as [| k IH]; intros g; simpl; [constructor |].
  specialize (IH (Sample.lcg_next g)).
  destruct (Sample.lcg_picks n k (Sample.lcg_next g)) as [rest g']. simpl in *.
  constructor; [| done].
  pose proof (Z.mod_pos_bound g (Z.of_nat n)). lia.
Qed.

Lemma lcg_fraction (g : Z) :
  (0 <= inject_Z (g mod 1024) / 1024)%Q ∧ (inject_Z (g mod 1024) / 1024 < 1)%Q.
Proof.
  pose proof (Z.mod_pos_bound g 1024 ltac:(lia)) as [Hlo Hhi]. split.
  - apply Qle_shift_div_l; [reflexivity |]. rewrite Qmult_0_l.
    change 0%Q with (inject_Z 0). by rewrite <- Zle_Qle.
  - apply Qlt_shift_div_r; [reflexivity |]. rewrite Qmult_1_l.
    change 1024%Q with (inject_Z 1024). by rewrite <- Zlt_Qlt.
Qed.

Lemma lcg_contract : random_contract Sample.lcg.
Proof.
  split; simpl.
  - intros n g Hn. pose proof (Z.mod_pos_bound g (Z.of_nat n)). lia.
  - intros n k g _. apply lcg_picks_length.
  - intros n k g Hn. by apply lcg_picks_range.
  - intros n k p g _. apply lcg_picks_length.
  - intros n k p g Hn. by apply lcg_picks_range.
  - intros lo hi g Hlh. pose proof (Z.mod_pos_bound g (hi - lo)). lia.
  - intros lo hi g Hlh. destruct (lcg_fraction g) as [H0 H1].
    assert (0 < hi - lo)%Q as Hpos.
    { apply (Qplus_lt_l _ _ lo). ring_simplify. exact Hlh. }
    assert (lo + (hi - lo) * inject_Z (g mod 1024) / 1024
            == lo + (hi - lo) * (inject_Z (g mod 1024) / 1024))%Q as -> by field.
    split.
    + rewrite <- (Qplus_0_r lo) at 1. apply Qplus_le_r.
      apply Qmult_le_0_compat; [by apply Qlt_le_weak | done].
    + apply Qlt_le_trans with (y := (lo + (hi - lo) * 1)%Q); [| ring_simplify; apply Qle_refl].
      apply Qplus_lt_r. by apply Qmult_lt_l.
  - intros g. apply lcg_fraction.
  - intros n g Hn. pose proof (Z.mod_pos_bound g (Z.of_nat n)). lia.
Qed.

Lemma exact_contract : float_contract Sample.exact.
Proof. split; simpl; [done | intros; reflexivity]. Qed.

End SampleFacts.

(** ** Statements about a finished run of the generator *)

Section RunFacts.
Import Generator.
Context {F : Float}.

Lemma generated_row (g : globals) (lt : locals * Transaction.t) :
  generated_tables g → lt ∈ generated g →
  ∃ i, 0 ≤ i < 2000 ∧ iteration (demo_df g) (product_df g) i lt.1 lt.2.
Proof.
  intros Hg [n Hn]%list_elem_of_lookup_1.
  destruct (Forall2_lookup_r _ _ _ _ _ (gt_transactions g Hg) Hn) as (i & Hi & Hit).
  apply lookup_seqZ in Hi. exists i. split; [lia | done].
Qed.

Lemma transaction_at (g : globals) (n : nat) (t : Transaction.t) :
  generated_tables g → transaction_df g !! n = Some t →
  ∃ l, iteration (demo_df g) (product_df g) (Z.of_nat n) l t.
Proof.
  intros Hg Ht. unfold transaction_df in Ht. rewrite list_lookup_fmap in Ht.
  destruct (generated g !! n) as [[l t'] |] eqn:Hn; [| done].
  injection Ht as <-.
  destruct (Forall2_lookup_r _ _ _ _ _ (gt_transactions g Hg) Hn) as (i & Hi & Hit).
  apply lookup_seqZ in Hi as [-> _]. exists l. by rewrite Z.add_0_l in Hit.
Qed.

Lemma length_transaction_df (g : globals) :
  generated_tables g → length (transaction_df g) = 2000%nat.
Proof.
  intros Hg. unfold transaction_df. rewrite length_fmap.
  rewrite <- (Forall2_length _ _ _ (gt_transactions g Hg)), length_seqZ. lia.
Qed.

Lemma basket_ids_of_run (g : globals) :
  generated_tables g →
  basket_ids (transaction_df g) = (λ i, 30000000000 + i / 3) <$> seqZ 0 2000.
Proof.
  intros Hg. apply list_eq_same_length with (n := 2000%nat).
  - rewrite length_fmap, length_seqZ. lia.
  - unfold basket_ids. rewrite length_fmap. by apply length_transaction_df.
  - intros n b b' Hn Hb Hb'. unfold basket_ids in Hb.
    rewrite list_lookup_fmap in Hb.
    destruct (transaction_df g !! n) as [t |] eqn:Ht; [| done].
    injection Hb as <-. destruct (transaction_at g n t Hg Ht) as (l & Hit).
    rewrite list_lookup_fmap, lookup_seqZ_lt in Hb' by lia.
    injection Hb' as <-. rewrite (it_basket_id _ _ _ _ _ Hit). by rewrite Z.add_0_l.
Qed.

End RunFacts.

Section GeneratorClaims.
Import Generator.
Context {R : Random} {F : Float}.
Context {CsvH : Csv household} {CsvP : Csv Product.t} {CsvT : Csv Transaction.t}.
Context (HR : random_contract R) (HF : float_contract F).

(** C6.  The script ends normally from every store, and every generated
    transaction has the household key of a row of the generated household
    table and the product id of a row of the generated product table. *)
Theorem transaction_references_resolve : ensures demo_data_gen references_resolve.
Proof.
  eapply ensures_weaken; [apply (demo_data_gen_ok HR HF) |].
  intros g Hg. apply Forall_forall. intros t Ht.
  unfold transaction_df in Ht. apply list_elem_of_fmap in Ht as ([l t'] & -> & Hlt).
  destruct (generated_row g (l, t') Hg Hlt) as (i & _ & Hit). simpl in *. split.
  - exists (hh l). split; [apply (it_household _ _ _ _ _ Hit) |].
    symmetry. apply (it_household_key _ _ _ _ _ Hit).
  - exists (prod l). split; [apply (it_product _ _ _ _ _ Hit) |].
    symmetry. apply (it_product_id _ _ _ _ _ Hit).
Qed.

(** C7.  The script ends normally from every store, and every generated
    product row has as sub-commodity the text SUB_ followed by its
    commodity, and as commodity a member of the list that [commodities]
    holds for its department. *)
Theorem product_commodity_rules : ensures demo_data_gen commodity_rules.
Proof.
  eapply ensures_weaken; [apply (demo_data_gen_ok HR HF) |].
  intros g Hg. eapply Forall2_Forall_r; [apply (gt_products g Hg) |].
  apply Forall_forall. intros i _ p Hp. split;
    [apply (pr_sub_commodity _ _ Hp) | apply (pr_commodity _ _ Hp)].
Qed.

(** C4.  The script ends normally from every store with 2000 transactions;
    the one at index [i] has basket id 30000000000 + i // 3, so two
    transactions share a basket id exactly when their indices have the same
    quotient by 3. *)
Theorem basket_id_by_index : ensures demo_data_gen basket_id_rule.
Proof.
  eapply ensures_weaken; [apply (demo_data_gen_ok HR HF) |].
  intros g Hg.
  assert (∀ n t, transaction_df g !! n = Some t →
                 Transaction.BASKET_ID t = 30000000000 + Z.of_nat n / 3) as Hat.
  { intros n t Ht. destruct (transaction_at g n t Hg Ht) as (l & Hit).
    apply (it_basket_id _ _ _ _ _ Hit). }
  split; [by apply length_transaction_df |]. split; [exact Hat |].
  intros i j ti tj Hi Hj. rewrite (Hat i ti Hi), (Hat j tj Hj). lia.
Qed.

(** C9.  The script ends normally from every store, and every generated
    transaction has a quantity from 1 to 5: a base of 1 or 2, plus 1 or 2
    only when the kid category of its household is not None/Unknown, plus 1
    only when its date is a Saturday or a Sunday. *)
Theorem quantity_between_1_and_5 : ensures demo_data_gen quantity_rule.
Proof.
  eapply ensures_weaken; [apply (demo_data_gen_ok HR HF) |].
  intros g Hg. apply Forall_forall. intros [l t] Hlt.
  destruct (generated_row g (l, t) Hg Hlt) as (i & _ & Hit). simpl in *.
  destruct (it_quantity_parts _ _ _ _ _ Hit) as (base & extra & bonus & Hparts).
  rewrite (it_quantity _ _ _ _ _ Hit).
  split; [| split; [| split; [| split; [| split]]]].
  - destruct Hparts as (-> & Hbase & Hextra & Hbonus & _).
    destruct (decide _); lia.
  - exists base, extra, bonus. split; [apply Hparts | done].
  - apply (it_household _ _ _ _ _ Hit).
  - apply (it_household_key _ _ _ _ _ Hit).
  - apply (it_day _ _ _ _ _ Hit).
  - apply (it_is_weekend _ _ _ _ _ Hit).
Qed.

End GeneratorClaims.

Section SalesValue.
Import Generator.
Context {R : Random} {F : Float}.
Context {CsvH : Csv household} {CsvP : Csv Product.t} {CsvT : Csv Transaction.t}.
Context (HR : random_contract R) (HF : float_contract F).

Lemma unit_price_between (l : locals) (drawn : Q) :
  unit_price l drawn → (1 <= base_price l)%Q ∧ (base_price l <= 15)%Q.
Proof.
  intros (Hlo & Hhi & ->). destruct (high_income (hh l)).
  - unfold float_mul, float_literal.
    apply (fl_between HF 1 15); [lia | lia | |];
      rewrite (fl_three_halves HF); change (inject_Z 1) with 1%Q;
      change (inject_Z 15) with 15%Q; lra.
  - split; lra.
Qed.

Lemma quotient_between (sales : Q) (quantity : Z) :
  1 ≤ quantity ≤ 5 →
  (inject_Z quantity <= sales)%Q → (sales <= inject_Z (15 * quantity))%Q →
  (1 <= sales / inject_Z quantity)%Q ∧ (sales / inject_Z quantity <= 15)%Q
  ∧ (1 <= float_div sales (float_of_int quantity))%Q
  ∧ (float_div sales (float_of_int quantity) <= 15)%Q.
Proof.
  intros Hq Hlo Hhi.
  assert (0 < inject_Z quantity)%Q as Hpos.
  { change 0%Q with (inject_Z 0). rewrite <- Zlt_Qlt. lia. }
  assert (1 <= sales / inject_Z quantity)%Q as H1.
  { apply Qle_shift_div_l; [done |]. by rewrite Qmult_1_l. }
  assert (sales / inject_Z quantity <= 15)%Q as H15.
  { apply Qle_shift_div_r; [done |]. rewrite inject_Z_mult in Hhi. exact Hhi. }
  split; [done |]. split; [done |].
  unfold float_div, float_of_int.
  apply (fl_between HF 1 15); [lia | lia | |];
    rewrite (fl_integer HF quantity) by lia; done.
Qed.

(** C2.  The script ends normally from every store, and every generated
    transaction has as sales value round(unit price * quantity, 2) for the
    unit price of its iteration, which is a draw from [1, 10), times 1.5
    for a high-income household; the quotient of sales value by quantity
    lies in [1, 15]. *)
Theorem sales_value_is_rounded_product : ensures demo_data_gen sales_value_rule.
Proof.
  eapply ensures_weaken; [apply (demo_data_gen_ok HR HF) |].
  intros g Hg. apply Forall_forall. intros [l t] Hlt.
  destruct (generated_row g (l, t) Hg Hlt) as (i & _ & Hit). simpl in *.
  destruct (it_unit_price _ _ _ _ _ Hit) as (drawn & Hprice).
  destruct (unit_price_between l drawn Hprice) as [Hp1 Hp15].
  destruct (it_quantity_parts _ _ _ _ _ Hit)
    as (base & extra & bonus & Hqty & Hbase & Hextra & Hbonus & _).
  assert (1 ≤ qty l ≤ 5) as Hq by (destruct (decide _); lia).
  rewrite (it_quantity _ _ _ _ _ Hit), (it_sales_value_row _ _ _ _ _ Hit).
  destruct (sales_value_between HF (base_price l) (qty l) Hp1 Hp15 Hq) as [Hlo Hhi].
  rewrite <- (it_sales_value _ _ _ _ _ Hit) in Hlo, Hhi.
  split; [apply (it_sales_value _ _ _ _ _ Hit) |]. split; [by exists drawn |].
  split; [done |]. split; [done |]. by apply quotient_between.
Qed.

End SalesValue.

Section Baskets.
Import Generator.
Context {F : Float}.

Lemma length_filter_fmap {A} (f : A → Z) (b : Z) (l : list A) :
  length (filter (λ x, x = b) (f <$> l)) = length (filter (λ a, f a = b) l).
Proof.
  induction l as [| a l IH]; [done |].
  rewrite fmap_cons, !filter_cons. case_decide; simpl; congruence.
Qed.

(** Among the indices below [n], those with basket id [30000000000 + k]
    are the indices from [3 * k] to [3 * k + 2]. *)
Lemma indices_of_basket (n : nat) (k : Z) :
  length (filter (λ i, 30000000000 + i / 3 = 30000000000 + k) (seqZ 0 (Z.of_nat n)))
  = Z.to_nat (Z.max 0 (Z.min (Z.of_nat n) (3 * k + 3) - Z.max 0 (3 * k))).
Proof.
  induction n as [| n IH].
  - rewrite seqZ_nil, filter_nil by lia. cbn [length]. lia.
  - rewrite seqZ_S, filter_app, length_app, IH, filter_cons, filter_nil.
    case_decide; cbn [length]; Z.to_euclidean_division_equations; lia.
Qed.

Lemma basket_size_of_run (g : globals) (k : Z) :
  generated_tables g →
  basket_size (transaction_df g) (30000000000 + k)
  = Z.to_nat (Z.max 0 (Z.min 2000 (3 * k + 3) - Z.max 0 (3 * k))).
Proof.
  intros Hg. unfold basket_size.
  rewrite <- (length_filter_fmap Transaction.BASKET_ID).
  fold (basket_ids (transaction_df g)). rewrite (basket_ids_of_run g Hg).
  rewrite length_filter_fmap. apply (indices_of_basket 2000).
Qed.

(** The indices from [a] on, [n] of them, that lie between [lo] and [hi]. *)
Lemma filter_seq_between (lo hi a n : nat) :
  filter (λ i, lo ≤ i < hi)%nat (seq a n)
  = seq (Nat.max a lo) (Nat.min (a + n) hi - Nat.max a lo).
Proof.
  induction n as [| n IH].
  - replace (Nat.min (a + 0) hi - Nat.max a lo)%nat with 0%nat by lia. done.
  - rewrite seq_S, filter_app, IH, filter_cons, filter_nil. case_decide.
    + replace (Nat.min (a + S n) hi - Nat.max a lo)%nat
        with (S (Nat.min (a + n) hi - Nat.max a lo)) by lia.
      rewrite seq_S. do 2 f_equal. lia.
    + rewrite app_nil_r. f_equal. lia.
Qed.

(** The indices of a basket are the indices that a rule on indices
    selects, when the rule tells at every index whether the row carries
    the basket id. *)
Lemma indices_by_rule (df : list Transaction.t) (b : Z)
  (Q : nat → Prop) `{!∀ i, Decision (Q i)} :
  (∀ i t, df !! i = Some t → (Transaction.BASKET_ID t = b ↔ Q i)) →
  basket_indices df b = filter Q (seq 0 (length df)).
Proof.
  unfold basket_indices. induction df as [| t df IH] using rev_ind; intros Hrule; [done |].
  rewrite imap_app, filter_app, fmap_app, length_app, seq_app, filter_app.
  rewrite IH by (intros i t' Hi; apply Hrule; by apply lookup_app_l_Some).
  f_equal. cbn [imap length seq]. rewrite !filter_cons, !filter_nil.
  cbn [compose snd Nat.add]. rewrite Nat.add_0_r.
  pose proof (Hrule (length df) t (list_lookup_middle _ _ _ _ eq_refl)) as Ht.
  repeat case_decide; cbn [fmap list_fmap fst]; tauto.
Qed.

Lemma basket_indices_of_run (g : globals) (k : nat) :
  generated_tables g →
  basket_indices (transaction_df g) (30000000000 + Z.of_nat k)
  = seq (3 * k) (Nat.min 2000 (3 * k + 3) - 3 * k).
Proof.
  intros Hg.
  rewrite (indices_by_rule _ _ (λ i, 3 * k ≤ i < 3 * k + 3)%nat).
  - rewrite (length_transaction_df g Hg), filter_seq_between. f_equal.
  - intros i t Hi. destruct (transaction_at g i t Hg Hi) as (l & Hit).
    rewrite (it_basket_id _ _ _ _ _ Hit).
    Z.to_euclidean_division_equations; lia.
Qed.

Lemma baskets_of_run (g : globals) :
  generated_tables g → baskets_of_three_but_last g.
Proof.
  intros Hg. pose proof (basket_ids_of_run g Hg) as Hids.
  split; [by apply length_transaction_df |]. split; [| split; [| split]].
  - intros b. rewrite Hids, list_elem_of_fmap. split.
    + intros (i & -> & Hi%elem_of_seqZ). exists (i / 3).
      Z.to_euclidean_division_equations; lia.
    + intros (k & Hk & ->). exists (3 * k).
      split; [Z.to_euclidean_division_equations; lia |].
      apply elem_of_seqZ. lia.
  - intros k Hk. split.
    + rewrite (basket_indices_of_run g k Hg).
      replace (Nat.min 2000 (3 * k + 3) - 3 * k)%nat with 3%nat by lia.
      cbn [seq]. repeat f_equal; lia.
    + rewrite (basket_size_of_run g (Z.of_nat k) Hg). lia.
  - change 30000000666 with (30000000000 + Z.of_nat 666).
    rewrite (basket_indices_of_run g 666 Hg). reflexivity.
  - change 30000000666 with (30000000000 + 666).
    rewrite (basket_size_of_run g 666 Hg). lia.
Qed.

Lemma not_baskets_of_three (g : globals) :
  generated_tables g → ¬ baskets_of_three g.
Proof.
  intros Hg Hthree. destruct (baskets_of_run g Hg) as (_ & Hids & _ & _ & Hlast).
  assert (30000000666 ∈ basket_ids (transaction_df g)) as Hin.
  { apply Hids. exists 666. lia. }
  specialize (Hthree _ Hin). congruence.
Qed.

End Baskets.

Section BasketClaims.
Import Generator.
Context {R : Random} {F : Float}.
Context {CsvH : Csv household} {CsvP : Csv Product.t} {CsvT : Csv Transaction.t}.
Context (HR : random_contract R) (HF : float_contract F).

(** C3, as the code has it.  The script ends normally from every store;
    its transaction table has 2000 rows, whose basket ids are
    30000000000 + k for k from 0 to 666.  Basket ids group contiguous
    indices: for k below 666 the transactions that carry 30000000000 + k
    are exactly the 3 transactions of indices 3 k, 3 k + 1 and 3 k + 2;
    the last basket id, 30000000666, is carried by exactly 2 transactions,
    those of indices 1998 and 1999. *)
Theorem baskets_of_three_except_last :
  ensures demo_data_gen baskets_of_three_but_last.
Proof.
  eapply ensures_weaken; [apply (demo_data_gen_ok HR HF) |].
  intros g Hg. by apply baskets_of_run.
Qed.

End BasketClaims.

Section GeneratorRuns.
Import Generator.

Lemma sample_demo_data_gen_ok :
  ensures Sample.demo_data_gen (generated_tables (F := Sample.exact)).
Proof.
  exact (demo_data_gen_ok (CsvH := Sample.csv_lines household_key)
           (CsvP := Sample.csv_lines Product.PRODUCT_ID)
           (CsvT := Sample.csv_lines Transaction.BASKET_ID)
           lcg_contract exact_contract).
Qed.

(** The run of the script on the sample libraries from seed state 7: the
    basket id 30000000666 is in the table and is shared by 2 transactions,
    not 3. *)
Lemma last_basket_has_two_transactions :
  ∃ g s', Sample.demo_data_gen (Sample.initial_store 7) = (Ok g, s')
          ∧ 30000000666 ∈ basket_ids (transaction_df g)
          ∧ basket_size (transaction_df g) 30000000666 = 2%nat
          ∧ ¬ baskets_of_three g.
Proof.
  destruct (sample_demo_data_gen_ok (Sample.initial_store 7))
    as (g & s' & Hrun & Hg).
  exists g, s'. split; [exact Hrun |].
  destruct (baskets_of_run (F := Sample.exact) g Hg) as (_ & Hids & _ & _ & Hlast).
  split; [apply Hids; exists 666; lia |]. split; [done |].
  by apply (not_baskets_of_three (F := Sample.exact)).
Qed.

End GeneratorRuns.

Section Determinism.
Import Generator.
Context {R : Random} {F : Float}.
Context {CsvH : Csv household} {CsvP : Csv Product.t} {CsvT : Csv Transaction.t}.

Lemma rng_only_ret {A} (a : A) : rng_only (mret a).
Proof. intros g. by exists (Ok a), g. Qed.

Lemma rng_only_raise {A} (e : py_exn) : rng_only (py_raise (A := A) e).
Proof. intros g. by exists (Raise e), g. Qed.

Lemma rng_only_bind {A B} (m : Py store A) (k : A → Py store B) :
  rng_only m → (∀ a, rng_only (k a)) → rng_only (m ≫= k).
Proof.
  intros Hm Hk g. destruct (Hm g) as ([a | e] & g1 & Hrun).
  - destruct (Hk a g1) as (r & g2 & Hrun2). exists r, g2. intros fs out.
    unfold mbind, Py_bind, py_bind. by rewrite Hrun, Hrun2.
  - exists (Raise e), g1. intros fs out.
    unfold mbind, Py_bind, py_bind. by rewrite Hrun.
Qed.

Lemma rng_only_draw {A} (f : rng → A * rng) : rng_only (draw f).
Proof.
  intros g. exists (Ok (f g).1), (f g).2. intros fs out.
  unfold draw. simpl. by destruct (f g).
Qed.

Lemma rng_only_for_append {A B} (xs : list A) (body : A → Py store B) :
  (∀ x, rng_only (body x)) → rng_only (for_append xs body).
Proof.
  intros Hbody. induction xs as [| x xs IH]; simpl.
  - apply rng_only_ret.
  - apply rng_only_bind; [apply Hbody |]. intros y.
    apply rng_only_bind; [apply IH |]. intros ys. apply rng_only_ret.
Qed.

Lemma rng_only_item {A} (xs : list A) (i : nat) : rng_only (item xs i).
Proof. unfold item. destruct (xs !! i); [apply rng_only_ret | apply rng_only_raise]. Qed.

Lemma rng_only_iloc {A} (df : list A) (i : nat) : rng_only (iloc df i).
Proof. unfold iloc. destruct (df !! i); [apply rng_only_ret | apply rng_only_raise]. Qed.

Lemma rng_only_choice {A} (a : list A) : rng_only (np_random_choice a).
Proof.
  unfold np_random_choice. destruct a; [apply rng_only_raise |].
  apply rng_only_bind; [apply rng_only_draw | intros; apply rng_only_item].
Qed.

Lemma rng_only_choice_size {A} (a : list A) (size : nat) :
  rng_only (np_random_choice_size a size).
Proof.
  unfold np_random_choice_size. destruct a; [apply rng_only_raise |].
  apply rng_only_bind; [apply rng_only_draw |]. intros picks.
  apply rng_only_for_append. intros; apply rng_only_item.
Qed.

Lemma rng_only_choice_size_p {A} (a : list A) (size : nat) (p : list Q) :
  rng_only (np_random_choice_size_p a size p).
Proof.
  unfold np_random_choice_size_p. destruct a; [apply rng_only_raise |].
  case_decide; [| apply rng_only_raise].
  apply rng_only_bind; [apply rng_only_draw |]. intros picks.
  apply rng_only_for_append. intros; apply rng_only_item.
Qed.

Lemma rng_only_randint (low high : Z) : rng_only (np_random_randint low high).
Proof.
  unfold np_random_randint. case_decide; [apply rng_only_draw | apply rng_only_raise].
Qed.

Lemma rng_only_sample_1 {A} (df : list A) : rng_only (sample_1 df).
Proof.
  unfold sample_1. destruct df; [apply rng_only_raise |].
  apply rng_only_bind; [apply rng_only_draw |]. intros i.
  apply rng_only_bind; [apply rng_only_item | intros; apply rng_only_ret].
Qed.

Lemma rng_only_getitem {V} (d : gmap string V) (key : string) :
  rng_only (getitem d key).
Proof. unfold getitem. destruct (d !! key); [apply rng_only_ret | apply rng_only_raise]. Qed.

Lemma rng_only_make_demo_df : rng_only make_demo_df.
Proof.
  unfold make_demo_df.
  do 2 (apply rng_only_bind; [apply rng_only_choice_size | intros ?]).
  apply rng_only_bind; [apply rng_only_choice_size_p | intros ?].
  do 4 (apply rng_only_bind; [apply rng_only_choice_size | intros ?]).
  unfold DataFrame_of_columns. case_decide; [| apply rng_only_raise].
  apply rng_only_for_append. intros i.
  do 8 (apply rng_only_bind; [apply rng_only_item | intros ?]).
  apply rng_only_ret.
Qed.

Lemma rng_only_product_body (i : Z) : rng_only (product_body i).
Proof.
  unfold product_body.
  apply rng_only_bind; [apply rng_only_choice | intros ?].
  apply rng_only_bind; [apply rng_only_getitem | intros ?].
  apply rng_only_bind; [apply rng_only_choice | intros ?].
  apply rng_only_bind; [apply rng_only_randint | intros ?].
  apply rng_only_bind; [apply rng_only_choice | intros ?].
  apply rng_only_bind; [apply rng_only_randint | intros ?].
  apply rng_only_ret.
Qed.

Lemma rng_only_transaction_body
  (demo_df : list household) (product_df : list Product.t) (i : Z) :
  rng_only (transaction_body demo_df product_df i).
Proof.
  unfold transaction_body.
  apply rng_only_bind; [apply rng_only_choice | intros ?].
  apply rng_only_bind; [apply rng_only_iloc | intros ?].
  apply rng_only_bind; [apply rng_only_sample_1 | intros ?].
  apply rng_only_bind; [apply rng_only_iloc | intros ?].
  apply rng_only_bind; [apply rng_only_randint | intros ?]. cbv zeta.
  apply rng_only_bind; [apply rng_only_draw | intros ?].
  apply rng_only_bind; [apply rng_only_randint | intros ?].
  apply rng_only_bind.
  { case_decide; [| apply rng_only_ret].
    apply rng_only_bind; [apply rng_only_randint | intros; apply rng_only_ret]. }
  intros ?. apply rng_only_bind.
  { destruct (bool_decide _); [| apply rng_only_ret].
    apply rng_only_bind; [apply rng_only_draw | intros ?].
    destruct (float_lt _ _); apply rng_only_ret. }
  intros ?.
  apply rng_only_bind; [apply rng_only_choice | intros ?].
  apply rng_only_bind; [apply rng_only_draw | intros ?].
  apply rng_only_bind; [apply rng_only_randint | intros ?].
  apply rng_only_ret.
Qed.

Lemma rng_only_build_tables : rng_only build_tables.
Proof.
  unfold build_tables.
  apply rng_only_bind; [apply rng_only_make_demo_df | intros demo].
  apply rng_only_bind.
  { apply rng_only_for_append. apply rng_only_product_body. }
  intros product. apply rng_only_bind.
  { apply rng_only_for_append. apply rng_only_transaction_body. }
  intros rows. apply rng_only_ret.
Qed.

Lemma demo_data_gen_split (s : store) :
  demo_data_gen s = (np_random_seed 42;; g ← build_tables; write_tables g) s.
Proof.
  unfold demo_data_gen, build_tables, write_tables, make_product_df.
  unfold mbind, Py_bind, py_bind, np_random_seed, py_modify.
  destruct (make_demo_df _) as [[demo | e] s1]; [| done].
  destruct (for_append (seqZ 1 50) product_body s1) as [[product | e] s2]; [| done].
  by destruct (for_append (seqZ 0 2000) (transaction_body demo product) s2)
    as [[rows | e] s3].
Qed.

(** Whatever the store the script starts from, it ends with the tables and
    the random state that seed 42 determines, the three files holding the
    text of those tables. *)
Lemma demo_data_gen_from_seed :
  ∃ r g', ∀ rng0 fs out,
    demo_data_gen (Store rng0 fs out)
    = match r with
      | Ok g =>
          (Ok g,
           Store g'
             (<["transaction_data.csv" := to_csv_text (transaction_df g)]>
                (<["product.csv" := to_csv_text (product_df g)]>
                   (<["hh_demographic.csv" := to_csv_text (demo_df g)]> fs)))
             (out ++ ["Synthetic demo data generated successfully!"]))
      | Raise e => (Raise e, Store g' fs out)
      end.
Proof.
  destruct (rng_only_build_tables (seed 42)) as (r & g' & Hrun).
  exists r, g'. intros rng0 fs out. rewrite demo_data_gen_split.
  unfold mbind at 1. unfold Py_bind, py_bind, np_random_seed, py_modify.
  cbn [random_state files stdout]. unfold mbind at 1. unfold Py_bind, py_bind.
  rewrite Hrun. by destruct r.
Qed.

End Determinism.

Section DeterminismClaim.
Import Generator.
Context {R : Random} {F : Float}.
Context {CsvH : Csv household} {CsvP : Csv Product.t} {CsvT : Csv Transaction.t}.
Context (HR : random_contract R) (HF : float_contract F).

(** C8.  The script seeds the random state with 42 before it draws
    anything, so two runs, whatever the random state, the files and the
    printed lines they start from, end normally with identical household,
    product and transaction tables and leave identical output files. *)
Theorem same_seed_same_output (s1 s2 : store) :
  same_tables_and_files (demo_data_gen s1) (demo_data_gen s2).
Proof.
  destruct demo_data_gen_from_seed as (r & g' & Hrun).
  destruct (demo_data_gen_ok HR HF s1) as (g & s1' & Hok & _).
  destruct s1 as [rng1 fs1 out1], s2 as [rng2 fs2 out2].
  rewrite Hrun in Hok. rewrite !Hrun.
  destruct r as [g0 | e]; [| done]. exists g0. cbn [fst snd].
  split; [done |]. split; [done |].
  unfold output_files. cbn [files].
  by rewrite !lookup_insert_eq, !(lookup_insert_ne _ "transaction_data.csv"),
    !lookup_insert_eq, !(lookup_insert_ne _ "product.csv"), !lookup_insert_eq.
Qed.

End DeterminismClaim.

(** *** The generator on the sample libraries *)

Section GeneratorWitnesses.
Import Generator.

Lemma transaction_references_resolve_witness :
  random_contract Sample.lcg ∧ float_contract Sample.exact
  ∧ ensures Sample.demo_data_gen (references_resolve).
Proof.
  split; [exact lcg_contract |]. split; [exact exact_contract |].
  exact (transaction_references_resolve (CsvH := Sample.csv_lines household_key)
           (CsvP := Sample.csv_lines Product.PRODUCT_ID)
           (CsvT := Sample.csv_lines Transaction.BASKET_ID)
           lcg_contract exact_contract).
Defined.

Lemma product_commodity_rules_witness :
  random_contract Sample.lcg ∧ float_contract Sample.exact
  ∧ ensures Sample.demo_data_gen (commodity_rules).
Proof.
  split; [exact lcg_contract |]. split; [exact exact_contract |].
  exact (product_commodity_rules (CsvH := Sample.csv_lines household_key)
           (CsvP := Sample.csv_lines Product.PRODUCT_ID)
           (CsvT := Sample.csv_lines Transaction.BASKET_ID)
           lcg_contract exact_contract).
Defined.

Lemma basket_id_by_index_witness :
  random_contract Sample.lcg ∧ float_contract Sample.exact
  ∧ ensures Sample.demo_data_gen (basket_id_rule).
Proof.
  split; [exact lcg_contract |]. split; [exact exact_contract |].
  exact (basket_id_by_index (CsvH := Sample.csv_lines household_key)
           (CsvP := Sample.csv_lines Product.PRODUCT_ID)
           (CsvT := Sample.csv_lines Transaction.BASKET_ID)
           lcg_contract exact_contract).
Defined.

Lemma quantity_between_1_and_5_witness :
  random_contract Sample.lcg ∧ float_contract Sample.exact
  ∧ ensures Sample.demo_data_gen (quantity_rule).
Proof.
  split; [exact lcg_contract |]. split; [exact exact_contract |].
  exact (quantity_between_1_and_5 (CsvH := Sample.csv_lines household_key)
           (CsvP := Sample.csv_lines Product.PRODUCT_ID)
           (CsvT := Sample.csv_lines Transaction.BASKET_ID)
           lcg_contract exact_contract).
Defined.

Lemma sales_value_is_rounded_product_witness :
  random_contract Sample.lcg ∧ float_contract Sample.exact
  ∧ ensures Sample.demo_data_gen (sales_value_rule (F := Sample.exact)).
Proof.
  split; [exact lcg_contract |]. split; [exact exact_contract |].
  exact (sales_value_is_rounded_product (CsvH := Sample.csv_lines household_key)
           (CsvP := Sample.csv_lines Product.PRODUCT_ID)
           (CsvT := Sample.csv_lines Transaction.BASKET_ID)
           lcg_contract exact_contract).
Defined.

Lemma baskets_of_three_except_last_witness :
  random_contract Sample.lcg ∧ float_contract Sample.exact
  ∧ ensures Sample.demo_data_gen (baskets_of_three_but_last).
Proof.
  split; [exact lcg_contract |]. split; [exact exact_contract |].
  exact (baskets_of_three_except_last (CsvH := Sample.csv_lines household_key)
           (CsvP := Sample.csv_lines Product.PRODUCT_ID)
           (CsvT := Sample.csv_lines Transaction.BASKET_ID)
           lcg_contract exact_contract).
Defined.

(** A fresh store, and one with another random state, an old product file
    and a printed line. *)
Lemma same_seed_same_output_witness :
  random_contract Sample.lcg ∧ float_contract Sample.exact
  ∧ same_tables_and_files (CsvH := Sample.csv_lines household_key)
      (CsvP := Sample.csv_lines Product.PRODUCT_ID)
      (CsvT := Sample.csv_lines Transaction.BASKET_ID)
      (Sample.demo_data_gen (Sample.initial_store 7))
      (Sample.demo_data_gen
         (Store (R := Sample.lcg) 2021 {["product.csv" := "PRODUCT_ID"]} ["started"])).
Proof.
  split; [exact lcg_contract |]. split; [exact exact_contract |].
  exact (same_seed_same_output (CsvH := Sample.csv_lines household_key)
           (CsvP := Sample.csv_lines Product.PRODUCT_ID)
           (CsvT := Sample.csv_lines Transaction.BASKET_ID)
           lcg_contract exact_contract _ _).
Defined.

End GeneratorWitnesses.

(** * Further properties *)

(** ** The loader *)

Section LoaderPaths.
Import Loader.
Context {E : Env}.

Lemma get_connection_raises s e s1 :
  get_snowflake_connection s = (Raise e, s1) → trace s1 = trace s.
Proof.
  unfold get_snowflake_connection, os_getenv, call, emit, py_modify.
  unfold mbind, Py_bind, py_bind, mret, Py_ret, py_ret. simpl.
  destruct (connect _ _) as [[c'|e'] w]; [done |]. by intros [= <- <-].
Qed.

(** One load operation, whatever happens in it: either the connection
    attempt raises and nothing else is done, or the connection is acquired,
    closed last, and no other connection event lies between. *)
Lemma load_segment file_path table_name s :
  (∃ e s1, get_snowflake_connection s = (Raise e, s1)
           ∧ load_csv_to_snowflake file_path table_name s = (Raise e, s1)
           ∧ trace s1 = trace s)
  ∨ (∃ c r w mid,
        load_csv_to_snowflake file_path table_name s
        = (r, State (close c w) (trace s ++ Connected c :: mid ++ [Closed c]))
        ∧ Forall (λ ev, ¬ connection_event ev) mid).
Proof.
  destruct (get_snowflake_connection s) as [[c | e] s1] eqn:Hc.
  - right. pose proof (get_connection_ok _ _ _ Hc) as Htr.
    destruct (read_csv file_path (the_world s1)) as [[df|e] w] eqn:Hr.
    + destruct (write_pandas c df table_name true true w)
        as [[[[success nchunks] nrows]|e] w'] eqn:Hu.
      * rewrite (load_upload_returns _ _ _ _ _ _ _ _ _ _ _ Hc Hr Hu), Htr.
        rewrite <- (app_assoc (trace s)). cbn [app].
        exists c, (Ok tt), w',
          (Printed (starting_message file_path table_name) :: ReadCsv file_path
           :: WritePandas c table_name
           :: (if success then [Printed (success_message nrows table_name)] else [])).
        split; [reflexivity |].
        destruct success; repeat constructor; simpl; tauto.
      * rewrite (load_upload_raises _ _ _ _ _ _ _ _ _ Hc Hr Hu), Htr.
        destruct (is_Exception e); rewrite <- (app_assoc (trace s)); cbn [app].
        -- eexists c, (Ok tt), w',
             [Printed (starting_message file_path table_name); ReadCsv file_path;
              WritePandas c table_name; Printed (error_message e)].
           split; [reflexivity | repeat constructor; simpl; tauto].
        -- eexists c, (Raise e), w',
             [Printed (starting_message file_path table_name); ReadCsv file_path;
              WritePandas c table_name].
           split; [reflexivity | repeat constructor; simpl; tauto].
    + rewrite (load_read_raises _ table_name _ _ _ _ _ Hc Hr), Htr.
      destruct (is_Exception e); rewrite <- (app_assoc (trace s)); cbn [app].
      * eexists c, (Ok tt), w,
          [Printed (starting_message file_path table_name); ReadCsv file_path;
           Printed (error_message e)].
        split; [reflexivity | repeat constructor; simpl; tauto].
      * eexists c, (Raise e), w,
          [Printed (starting_message file_path table_name); ReadCsv file_path].
        split; [reflexivity | repeat constructor; simpl; tauto].
  - left. exists e, s1. split; [done |]. split; [by apply load_connect_raises |].
    by eapply get_connection_raises.
Qed.

Lemma scoped_app (tr1 tr2 : list event) :
  scoped tr1 → scoped tr2 → scoped (tr1 ++ tr2).
Proof.
  induction 1 as [| c mid rest Hmid Hrest IH]; intros H2; [done |].
  cbn [app]. rewrite <- app_assoc. cbn [app]. constructor; [done | by apply IH].
Qed.

Lemma connections_app (tr1 tr2 : list event) :
  connections (tr1 ++ tr2) = connections tr1 ++ connections tr2.
Proof. unfold connections. apply omap_app. Qed.

Lemma connections_quiet (mid : list event) :
  Forall (λ ev, ¬ connection_event ev) mid → connections mid = [].
Proof.
  induction 1 as [| ev mid Hev _ IH]; [done |].
  unfold connections in *. destruct ev; simpl in *; tauto.
Qed.

(** What one operation adds to the trace is empty or one scoped use of one
    connection. *)
Lemma load_scoped file_path table_name s :
  ∃ tr, trace (load_csv_to_snowflake file_path table_name s).2 = trace s ++ tr
        ∧ scoped tr ∧ (length (connections tr) ≤ 1)%nat.
Proof.
  destruct (load_segment file_path table_name s)
    as [(e & s1 & _ & -> & Htr) | (c & r & w & mid & -> & Hmid)].
  - exists []. rewrite app_nil_r. split; [done |]. split; [constructor | simpl; lia].
  - exists (Connected c :: mid ++ [Closed c]). split; [done |]. split.
    + constructor; [done | constructor].
    + change (Connected c :: mid ++ [Closed c])
        with ([Connected c] ++ mid ++ [Closed c]).
      rewrite !connections_app, (connections_quiet mid Hmid). simpl. lia.
Qed.

End LoaderPaths.

Section LoaderExtras.
Import Loader.
Context {E : Env}.

Lemma then_scoped (m1 m2 : Py state unit) (n1 n2 : nat) :
  (∀ s, ∃ tr, trace (m1 s).2 = trace s ++ tr ∧ scoped tr
              ∧ (length (connections tr) ≤ n1)%nat) →
  (∀ s, ∃ tr, trace (m2 s).2 = trace s ++ tr ∧ scoped tr
              ∧ (length (connections tr) ≤ n2)%nat) →
  ∀ s, ∃ tr, trace ((m1 ;; m2) s).2 = trace s ++ tr ∧ scoped tr
             ∧ (length (connections tr) ≤ n1 + n2)%nat.
Proof.
  intros H1 H2 s. destruct (H1 s) as (tr1 & Htr1 & Hs1 & Hn1).
  unfold mbind, Py_bind, py_bind.
  destruct (m1 s) as [[[] | e] s1]; cbn [snd] in Htr1.
  - destruct (H2 s1) as (tr2 & Htr2 & Hs2 & Hn2). exists (tr1 ++ tr2).
    rewrite Htr2, Htr1, <- app_assoc. split; [done |].
    split; [by apply scoped_app |]. rewrite connections_app, length_app. lia.
  - exists tr1. cbn [snd]. split; [done |]. split; [done | lia].
Qed.

(** X1.  Connections are scoped.  In every run of the loader, on every
    warehouse and whatever fails, the connection events of the trace come
    in pairs of an acquisition and the closing of the same connection with
    no connection event between them: at most one connection is open at a
    time, none is left open at the end, and at most three are opened. *)
Theorem run_connections_scoped (w : world) :
  scoped (trace (run w).2) ∧ (length (connections (trace (run w).2)) ≤ 3)%nat.
Proof.
  unfold run, script.
  assert (∀ s, ∃ tr, trace (main s).2 = trace s ++ tr ∧ scoped tr
                     ∧ (length (connections tr) ≤ 1 + (1 + 1))%nat) as Hmain.
  { unfold main. apply then_scoped; [apply load_scoped |].
    apply then_scoped; apply load_scoped. }
  unfold mbind, Py_bind, py_bind, call. cbn [the_world trace].
  destruct (Hmain (State (load_dotenv w) [])) as (tr & -> & Hs & Hn).
  cbn [trace app]. split; [done | lia].
Qed.

(** X2.  The successful path.  When the connection is acquired, the file is read
    and the upload reports success, the operation prints the starting
    message and then the success message with the row count the upload
    reported, closes the connection and returns normally. *)
Theorem successful_load_reports_rows
  file_path table_name s c s1 df w nchunks nrows w' :
  get_snowflake_connection s = (Ok c, s1) →
  read_csv file_path (the_world s1) = (Ok df, w) →
  write_pandas c df table_name true true w = (Ok (true, nchunks, nrows), w') →
  load_csv_to_snowflake file_path table_name s
  = (Ok tt,
     State (close c w')
       (trace s ++ [Connected c; Printed (starting_message file_path table_name);
                    ReadCsv file_path; WritePandas c table_name;
                    Printed ("Successfully ingested " +:+ pretty nrows
                             +:+ " rows into " +:+ table_name);
                    Closed c])).
Proof.
  intros Hc Hr Hu.
  rewrite (load_upload_returns _ _ _ _ _ _ _ _ _ _ _ Hc Hr Hu),
    (get_connection_ok _ _ _ Hc).
  by rewrite <- (app_assoc (trace s)).
Qed.

(** X3.  An exception that does not derive from [Exception], raised by the read
    or by the upload, is not caught and not logged: the operation closes
    its connection and raises it, and so does the entry point when this
    happens in its first operation, without starting the other two. *)
Theorem other_exceptions_propagate file_path table_name s c s1 e :
  get_snowflake_connection s = (Ok c, s1) →
  raised_in_try file_path table_name c s1 e →
  is_Exception e = false →
  ∃ w mid,
    load_csv_to_snowflake file_path table_name s
    = (Raise e, State (close c w) (trace s ++ Connected c :: mid ++ [Closed c]))
    ∧ printed mid = [starting_message file_path table_name]
    ∧ ∀ rest : Py state unit,
        (load_csv_to_snowflake file_path table_name ;; rest) s
        = (Raise e, State (close c w) (trace s ++ Connected c :: mid ++ [Closed c])).
Proof.
  intros Hc Hraised He. pose proof (get_connection_ok _ _ _ Hc) as Htr.
  destruct Hraised as [(w & Hr) | (df & w0 & w & Hr & Hu)].
  - exists w, [Printed (starting_message file_path table_name); ReadCsv file_path].
    assert (load_csv_to_snowflake file_path table_name s
            = (Raise e, State (close c w)
                 (trace s ++ Connected c
                    :: [Printed (starting_message file_path table_name);
                        ReadCsv file_path] ++ [Closed c]))) as Hload.
    { rewrite (load_read_raises _ table_name _ _ _ _ _ Hc Hr), He, Htr.
      by rewrite <- (app_assoc (trace s)). }
    split; [done |]. split; [done |]. intros rest. by apply bind_raise.
  - exists w, [Printed (starting_message file_path table_name); ReadCsv file_path;
               WritePandas c table_name].
    assert (load_csv_to_snowflake file_path table_name s
            = (Raise e, State (close c w)
                 (trace s ++ Connected c
                    :: [Printed (starting_message file_path table_name);
                        ReadCsv file_path; WritePandas c table_name]
                    ++ [Closed c]))) as Hload.
    { rewrite (load_upload_raises _ _ _ _ _ _ _ _ _ Hc Hr Hu), He, Htr.
      by rewrite <- (app_assoc (trace s)). }
    split; [done |]. split; [done |]. intros rest. by apply bind_raise.
Qed.

(** X4.  A failed read skips the upload.  When reading the file raises, of
    whatever class, the operation never calls the upload: its trace has no
    upload event, and the world it leaves is the one the failed read left,
    with the connection closed. *)
Theorem failed_read_skips_upload file_path table_name s c s1 e w :
  get_snowflake_connection s = (Ok c, s1) →
  read_csv file_path (the_world s1) = (Raise e, w) →
  ∃ r mid,
    load_csv_to_snowflake file_path table_name s
    = (r, State (close c w) (trace s ++ Connected c :: mid ++ [Closed c]))
    ∧ uploads mid = []
    ∧ r = (if is_Exception e then Ok tt else Raise e).
Proof.
  intros Hc Hr. pose proof (get_connection_ok _ _ _ Hc) as Htr.
  rewrite (load_read_raises _ table_name _ _ _ _ _ Hc Hr), Htr.
  destruct (is_Exception e); rewrite <- (app_assoc (trace s)); cbn [app].
  - by exists (Ok tt), [Printed (starting_message file_path table_name);
                        ReadCsv file_path; Printed (error_message e)].
  - by exists (Raise e), [Printed (starting_message file_path table_name);
                           ReadCsv file_path].
Qed.

(** X5.  When the first connection attempt raises, the entry point raises the
    same exception at once: nothing is printed, read, uploaded or closed. *)
Theorem first_connection_failure_stops_main s e s1 :
  get_snowflake_connection s = (Raise e, s1) →
  main s = (Raise e, s1) ∧ trace s1 = trace s.
Proof.
  intros Hc. split; [| by eapply get_connection_raises].
  unfold main. apply bind_raise. by apply load_connect_raises.
Qed.

End LoaderExtras.

Section LoaderExtraRuns.
Import Loader.

Lemma successful_load_reports_rows_witness :
  load_csv_to_snowflake (E := Sample.healthy)
    "./data/product.csv" "PRODUCTS" (State (E := Sample.healthy) Sample.fresh [])
  = (Ok tt,
     State (E := Sample.healthy)
       (close (Env := Sample.healthy) 0%nat (Sample.WarehouseWorld 1 []))
       ([] ++ [Connected (E := Sample.healthy) 0%nat;
               Printed (starting_message "./data/product.csv" "PRODUCTS");
               ReadCsv "./data/product.csv";
               WritePandas (E := Sample.healthy) 0%nat "PRODUCTS";
               Printed ("Successfully ingested " +:+ pretty 10
                        +:+ " rows into " +:+ "PRODUCTS");
               Closed (E := Sample.healthy) 0%nat])).
Proof.
  apply (successful_load_reports_rows (E := Sample.healthy)
           "./data/product.csv" "PRODUCTS"
           (State (E := Sample.healthy) Sample.fresh []) 0%nat
           (State (E := Sample.healthy) (Sample.WarehouseWorld 1 [])
              [Connected (E := Sample.healthy) 0%nat])
           "./data/product.csv" (Sample.WarehouseWorld 1 []) 1 10
           (Sample.WarehouseWorld 1 []));
    reflexivity.
Defined.

Lemma other_exceptions_propagate_witness :
  ∃ w mid,
    load_csv_to_snowflake (E := Sample.interrupted)
      "./data/transaction_data.csv" "TRANSACTIONS"
      (State (E := Sample.interrupted) Sample.fresh [])
    = (Raise (PyExn false "KeyboardInterrupt"),
       State (E := Sample.interrupted) (close (Env := Sample.interrupted) 0%nat w)
         ([] ++ Connected (E := Sample.interrupted) 0%nat
             :: mid ++ [Closed (E := Sample.interrupted) 0%nat]))
    ∧ printed mid = [starting_message "./data/transaction_data.csv" "TRANSACTIONS"]
    ∧ ∀ rest : Py (state (E := Sample.interrupted)) unit,
        (load_csv_to_snowflake (E := Sample.interrupted)
           "./data/transaction_data.csv" "TRANSACTIONS" ;; rest)
          (State (E := Sample.interrupted) Sample.fresh [])
        = (Raise (PyExn false "KeyboardInterrupt"),
           State (E := Sample.interrupted)
             (close (Env := Sample.interrupted) 0%nat w)
             ([] ++ Connected (E := Sample.interrupted) 0%nat
                 :: mid ++ [Closed (E := Sample.interrupted) 0%nat])).
Proof.
  apply (other_exceptions_propagate (E := Sample.interrupted)
           "./data/transaction_data.csv" "TRANSACTIONS"
           (State (E := Sample.interrupted) Sample.fresh []) 0%nat
           (State (E := Sample.interrupted) (Sample.WarehouseWorld 1 [])
              [Connected (E := Sample.interrupted) 0%nat])
           (PyExn false "KeyboardInterrupt")).
  - reflexivity.
  - right. exists "./data/transaction_data.csv", (Sample.WarehouseWorld 1 []),
      (Sample.WarehouseWorld 1 []). split; reflexivity.
  - reflexivity.
Defined.

Lemma failed_read_skips_upload_witness :
  ∃ r mid,
    load_csv_to_snowflake (E := Sample.unreadable_product)
      "./data/product.csv" "PRODUCTS"
      (State (E := Sample.unreadable_product) Sample.fresh [])
    = (r, State (E := Sample.unreadable_product)
            (close (Env := Sample.unreadable_product) 0%nat
               (Sample.WarehouseWorld 1 []))
            ([] ++ Connected (E := Sample.unreadable_product) 0%nat
                :: mid ++ [Closed (E := Sample.unreadable_product) 0%nat]))
    ∧ uploads mid = []
    ∧ r = (if is_Exception
                (PyExn true "No such file or directory: ./data/product.csv")
           then Ok tt
           else Raise (PyExn true "No such file or directory: ./data/product.csv")).
Proof.
  apply (failed_read_skips_upload (E := Sample.unreadable_product)
           "./data/product.csv" "PRODUCTS"
           (State (E := Sample.unreadable_product) Sample.fresh []) 0%nat
           (State (E := Sample.unreadable_product) (Sample.WarehouseWorld 1 [])
              [Connected (E := Sample.unreadable_product) 0%nat])
           (PyExn true "No such file or directory: ./data/product.csv")
           (Sample.WarehouseWorld 1 []));
    reflexivity.
Defined.

Lemma first_connection_failure_stops_main_witness :
  main (E := Sample.unreachable) (State (E := Sample.unreachable) Sample.fresh [])
  = (Raise (PyExn true "could not connect to the warehouse"),
     State (E := Sample.unreachable) (Sample.WarehouseWorld 1 []) [])
  ∧ trace (State (E := Sample.unreachable) (Sample.WarehouseWorld 1 []) [])
    = trace (State (E := Sample.unreachable) Sample.fresh []).
Proof.
  apply (first_connection_failure_stops_main (E := Sample.unreachable)
           (State (E := Sample.unreachable) Sample.fresh [])
           (PyExn true "could not connect to the warehouse")
           (State (E := Sample.unreachable) (Sample.WarehouseWorld 1 []) [])).
  reflexivity.
Defined.

End LoaderExtraRuns.

(** ** The generator *)

Section EnsuresMore.
Context {S : Type}.

(** A statement has one outcome from each store, so what two
    specifications say of it holds of the same value. *)
Lemma ensures_and {A} (m : Py S A) (P Q : A → Prop) :
  ensures m P → ensures m Q → ensures m (λ a, P a ∧ Q a).
Proof.
  intros HP HQ s. destruct (HP s) as (a & s1 & Hrun & Ha).
  destruct (HQ s) as (a' & s1' & Hrun' & Ha').
  rewrite Hrun in Hrun'. injection Hrun' as <- <-. eauto.
Qed.

End EnsuresMore.

Section DomainFacts.
Import Generator.
Context {R : Random} {F : Float}.
Context {CsvH : Csv household} {CsvP : Csv Product.t} {CsvT : Csv Transaction.t}.
Context (HR : random_contract R) (HF : float_contract F).

Lemma ensures_item_of {A} (xs : list A) (P : A → Prop) (i : nat) :
  (i < length xs)%nat → Forall P xs → ensures (item xs i) P.
Proof.
  intros Hi HP. eapply ensures_weaken; [by apply ensures_item |].
  intros x Hx. exact (Forall_lookup_1 _ _ _ _ HP Hx).
Qed.

Lemma DataFrame_of_columns_domains
  (key : list Z) (age marital income homeowner comp size kid : list string) :
  length age = length key → length marital = length key →
  length income = length key → length homeowner = length key →
  length comp = length key → length size = length key →
  length kid = length key →
  Forall (λ x, x ∈ age_groups) age →
  Forall (λ x, x ∈ ["A"; "B"; "U"]) marital →
  Forall (λ x, x ∈ income_groups) income →
  Forall (λ x, x ∈ ["Homeowner"; "Renter"; "Unknown"]) homeowner →
  Forall (λ x, x ∈ hh_comp) comp →
  Forall (λ x, x ∈ hh_sizes) size →
  Forall (λ x, x ∈ ["None/Unknown"; "1"; "2"; "3+"]) kid →
  ensures (DataFrame_of_columns key age marital income homeowner comp size kid)
    (Forall household_domains).
Proof.
  intros La Lm Li Lh Lc Ls Lk Ha Hm Hi Hh Hc Hs Hk. unfold DataFrame_of_columns.
  rewrite decide_True by (repeat constructor; done).
  eapply ensures_weaken.
  - apply (ensures_for_append _ _ (λ _ h, household_domains h)).
    intros i Hin%elem_of_seq.
    eapply ensures_bind; [apply ensures_item; lia |]. intros k _.
    eapply ensures_bind; [apply (ensures_item_of age); [lia | exact Ha] |]. intros a Pa.
    eapply ensures_bind; [apply (ensures_item_of marital); [lia | exact Hm] |]. intros m Pm.
    eapply ensures_bind; [apply (ensures_item_of income); [lia | exact Hi] |]. intros n Pn.
    eapply ensures_bind; [apply (ensures_item_of homeowner); [lia | exact Hh] |]. intros h Ph.
    eapply ensures_bind; [apply (ensures_item_of comp); [lia | exact Hc] |]. intros c Pc.
    eapply ensures_bind; [apply (ensures_item_of size); [lia | exact Hs] |]. intros z Pz.
    eapply ensures_bind; [apply (ensures_item_of kid); [lia | exact Hk] |]. intros d Pd.
    apply ensures_ret. by split.
  - intros df Hdf. eapply Forall2_Forall_r; [exact Hdf |].
    apply Forall_forall. by intros i _ h Hh'.
Qed.

Lemma make_demo_df_domains : ensures make_demo_df (Forall household_domains).
Proof.
  unfold make_demo_df.
  eapply ensures_bind; [by apply (ensures_choice_size HR) |]. intros age [La Ha].
  eapply ensures_bind; [by apply (ensures_choice_size HR) |]. intros marital [Lm Hm].
  eapply ensures_bind; [by apply (ensures_choice_size_p HR) |]. intros income [Li Hi].
  eapply ensures_bind; [by apply (ensures_choice_size HR) |]. intros homeowner [Lh Hh].
  eapply ensures_bind; [by apply (ensures_choice_size HR) |]. intros comp [Lc Hc].
  eapply ensures_bind; [by apply (ensures_choice_size HR) |]. intros size [Ls Hs].
  eapply ensures_bind; [by apply (ensures_choice_size HR) |]. intros kid [Lk Hk].
  apply DataFrame_of_columns_domains; by rewrite ?length_seqZ.
Qed.

Lemma product_body_domains (i : Z) : ensures (product_body i) product_domains.
Proof.
  unfold product_body.
  eapply ensures_bind; [by apply (ensures_choice HR) |]. intros dept Hdept.
  destruct (commodities_of_department dept Hdept) as (valid & Hvalid & Hne).
  unfold getitem. rewrite Hvalid.
  eapply ensures_bind;
    [apply (ensures_ret valid (λ v, v = valid)); reflexivity |].
  intros ? ->.
  eapply ensures_bind; [by apply (ensures_choice HR) |]. intros comm _.
  eapply ensures_bind; [by apply (ensures_randint HR) |]. intros manufacturer Hm.
  eapply ensures_bind; [by apply (ensures_choice HR) |]. intros brand Hb.
  eapply ensures_bind; [by apply (ensures_randint HR) |]. intros size Hs.
  apply ensures_ret. split; simpl; [done | done | done |]. by exists size.
Qed.

Lemma transaction_body_domains
  (demo_df : list household) (product_df : list Product.t) (i : Z) :
  demo_df ≠ [] → product_df ≠ [] →
  ensures (transaction_body demo_df product_df i) (λ lt, transaction_domains lt.2).
Proof.
  intros Hdemo Hproduct. unfold transaction_body.
  eapply ensures_bind.
  { apply (ensures_choice HR). unfold index. by destruct demo_df. }
  intros hh_idx Hidx%elem_of_seq.
  eapply ensures_bind; [apply ensures_iloc; lia |]. intros h _.
  eapply ensures_bind; [by apply (ensures_sample_1 HR) |].
  intros sampled (row & -> & _).
  eapply ensures_bind; [apply ensures_iloc; simpl; lia |]. intros p _.
  eapply ensures_bind; [by apply (ensures_randint HR) |]. intros offset _.
  cbv beta zeta.
  eapply ensures_bind; [apply (ensures_base_price HR HF) |]. intros drawn _.
  eapply ensures_bind; [by apply (ensures_randint HR) |]. intros base _.
  eapply ensures_bind; [apply (ensures_kids_extra HR) |]. intros qty1 _.
  eapply ensures_bind; [apply (ensures_weekend_bonus HR) |]. intros qty2 _.
  cbv beta zeta.
  eapply ensures_bind; [by apply (ensures_choice HR) |]. intros store_id Hstore.
  eapply ensures_bind; [apply (ensures_rand HR) |]. intros r _.
  eapply ensures_bind; [by apply (ensures_randint HR) |]. intros trans_time Htime.
  apply ensures_ret. split; cbn [snd Transaction.STORE_ID Transaction.TRANS_TIME
    Transaction.RETAIL_DISC Transaction.SALES_VALUE]; [done | done |].
  destruct (float_gt r (float_literal (8 # 10))); [by right | by left].
Qed.

Lemma demo_data_gen_domains : ensures demo_data_gen table_domains.
Proof.
  unfold demo_data_gen, np_random_seed, to_csv, print.
  eapply ensures_bind; [by apply (ensures_modify _ (λ _, True)) |]. intros _ _.
  eapply ensures_bind.
  { apply ensures_and; [apply (make_demo_df_ok HR) | apply make_demo_df_domains]. }
  intros demo [Hkeys Hdemo].
  eapply ensures_bind.
  { apply ensures_and; [apply (make_product_df_ok HR) |].
    apply (ensures_for_append _ _ (λ _ p, product_domains p)).
    intros i _. apply product_body_domains. }
  intros product [Hids Hproduct].
  assert (demo ≠ []) as Hdemo_ne.
  { apply Forall2_length in Hkeys. rewrite length_seqZ in Hkeys.
    intros ->. simpl in Hkeys. lia. }
  assert (product ≠ []) as Hproduct_ne.
  { apply Forall2_length in Hids. rewrite length_seqZ in Hids.
    intros ->. simpl in Hids. lia. }
  eapply ensures_bind.
  { apply (ensures_for_append _ _ (λ _ lt, transaction_domains lt.2)).
    intros i _. by apply transaction_body_domains. }
  intros rows Hrows. cbv beta zeta.
  do 4 (eapply ensures_bind;
          [by apply (ensures_modify _ (λ _, True)) |]; intros _ _).
  apply ensures_ret. split; [done |]. split.
  - eapply Forall2_Forall_r; [exact Hproduct |]. apply Forall_forall. by intros.
  - unfold transaction_df. cbn [generated]. apply Forall_fmap.
    eapply Forall2_Forall_r; [exact Hrows |]. apply Forall_forall. by intros.
Qed.

End DomainFacts.

Section CalendarFacts.
Import Generator.

(** The 365 offsets of the script, by evaluation of the date functions. *)
Lemma calendar_of_2021 :
  Forall (λ offset,
      day_of_2021 offset (add_days start_date offset)
        (strftime_Ymd (add_days start_date offset))
      ∧ weekday (add_days start_date offset) = (offset + 4) mod 7)
    (seqZ 0 365).
Proof.
  apply (bool_decide_unpack _). vm_compute. reflexivity.
Qed.

Lemma calendar_at (offset : Z) :
  0 ≤ offset < 365 →
  day_of_2021 offset (add_days start_date offset)
    (strftime_Ymd (add_days start_date offset))
  ∧ weekday (add_days start_date offset) = (offset + 4) mod 7.
Proof.
  intros Ho. apply (proj1 (Forall_forall _ _) calendar_of_2021).
  apply elem_of_seqZ. lia.
Qed.

End CalendarFacts.

Section PriceFacts.
Import Generator.
Context {F : Float} (HF : float_contract F).

Lemma income_markers :
  Forall (λ s, str_in "100" s || str_in "250" s
               = bool_decide (s ∈ ["100-124K"; "250K+"]))
    income_groups.
Proof. apply (bool_decide_unpack _). vm_compute. reflexivity. Qed.

Lemma high_income_brackets (h : household) :
  INCOME_DESC h ∈ income_groups →
  high_income h = true ↔ INCOME_DESC h = "100-124K" ∨ INCOME_DESC h = "250K+".
Proof.
  intros Hin. unfold high_income.
  rewrite (proj1 (Forall_forall _ _) income_markers _ Hin).
  rewrite bool_decide_eq_true, !elem_of_cons, elem_of_nil. tauto.
Qed.

Lemma unit_price_by_income (l : locals) (drawn : Q) :
  unit_price l drawn →
  if high_income (hh l)
  then (15 # 10 <= base_price l)%Q ∧ (base_price l <= 15)%Q
  else (1 <= base_price l)%Q ∧ (base_price l < 10)%Q.
Proof.
  intros (Hlo & Hhi & ->). destruct (high_income (hh l)); [| done].
  unfold float_mul, float_literal. split.
  - rewrite <- (fl_three_halves HF) at 1. apply (fl_monotone F HF).
    rewrite (fl_three_halves HF). lra.
  - apply (fl_between HF 1 15); [lia | lia | |];
      rewrite (fl_three_halves HF); change (inject_Z 1) with 1%Q;
      change (inject_Z 15) with 15%Q; lra.
Qed.

Lemma tenth_between : (0 <= float_literal (1 # 10))%Q ∧ (float_literal (1 # 10) <= 1 # 8)%Q.
Proof.
  unfold float_literal. split.
  - rewrite <- (fl_integer HF 0) by lia. by apply (fl_monotone F HF).
  - pose proof (fl_exact F HF 1 3 ltac:(lia) ltac:(lia)) as H8.
    assert (inject_Z 1 / inject_Z (2 ^ Z.of_nat 3) == 1 # 8)%Q as Heq by reflexivity.
    apply Qle_trans with (y := fl (inject_Z 1 / inject_Z (2 ^ Z.of_nat 3))).
    + apply (fl_monotone F HF). rewrite Heq. by apply Qle_bool_imp_le.
    + rewrite H8, Heq. apply Qle_refl.
Qed.

(** A tenth of a sales value of at least 1, rounded to 2 places, does not
    exceed the sales value. *)
Lemma discount_between (sales : Q) :
  (1 <= sales)%Q → (sales <= 75)%Q →
  (0 <= py_round (float_mul sales (float_literal (1 # 10))) 2)%Q
  ∧ (py_round (float_mul sales (float_literal (1 # 10))) 2 <= sales)%Q.
Proof.
  intros H1 H75. destruct tenth_between as [Hc0 Hc8].
  pose proof (Qfloor_le sales) as Hfloor. pose proof (Qlt_floor sales) as Hceil.
  assert (1 ≤ Qfloor sales) as Hn1.
  { rewrite <- (Qfloor_Z 1). by apply Qfloor_resp_le. }
  assert (Qfloor sales ≤ 75) as Hn75.
  { rewrite <- (Qfloor_Z 75). by apply Qfloor_resp_le. }
  assert (inject_Z 1 <= inject_Z (Qfloor sales))%Q as Hq1 by (by rewrite <- Zle_Qle).
  rewrite inject_Z_plus in Hceil.
  change (inject_Z 1) with 1%Q in Hceil, Hq1.
  destruct (py_round_between HF 0 (Qfloor sales)
              (float_mul sales (float_literal (1 # 10)))) as [Hlo Hhi];
    [lia | lia | | |].
  - unfold float_mul. apply (fl_between HF 0 (Qfloor sales)); [lia | lia | |];
      change (inject_Z 0) with 0%Q; nra.
  - unfold float_mul. apply (fl_between HF 0 (Qfloor sales)); [lia | lia | |];
      change (inject_Z 0) with 0%Q; nra.
  - split; [exact Hlo |]. by apply Qle_trans with (y := inject_Z (Qfloor sales)).
Qed.

End PriceFacts.

Section GeneratorExtras.
Import Generator.
Context {R : Random} {F : Float}.
Context {CsvH : Csv household} {CsvP : Csv Product.t} {CsvT : Csv Transaction.t}.
Context (HR : random_contract R) (HF : float_contract F).

Lemma demo_data_gen_facts :
  ensures demo_data_gen (λ g, generated_tables g ∧ table_domains g).
Proof.
  apply ensures_and; [apply (demo_data_gen_ok HR HF) | apply (demo_data_gen_domains HR HF)].
Qed.

(** X6.  The household table has 100 rows whose keys are 1, 2, ..., 100 in this
    order, hence pairwise distinct. *)
Theorem household_keys_1_to_100 : ensures demo_data_gen keys_in_order.
Proof.
  eapply ensures_weaken; [apply (demo_data_gen_ok HR HF) |].
  intros g Hg. pose proof (gt_households g Hg) as Hkeys.
  assert (household_keys g = seqZ 1 100) as Heq.
  { symmetry. apply list_eq_Forall2. unfold household_keys.
    apply Forall2_fmap_r. eapply Forall2_impl; [exact Hkeys |]. by intros. }
  split; [done |]. split; [rewrite Heq; apply NoDup_seqZ |].
  apply Forall2_length in Hkeys. rewrite length_seqZ in Hkeys. lia.
Qed.

(** X7.  The product table has 50 rows whose ids are 1001, 1002, ..., 1050 in
    this order, hence pairwise distinct. *)
Theorem product_ids_1001_to_1050 : ensures demo_data_gen ids_in_order.
Proof.
  eapply ensures_weaken; [apply (demo_data_gen_ok HR HF) |].
  intros g Hg. pose proof (gt_products g Hg) as Hids.
  assert (product_ids g = seqZ 1001 50) as Heq.
  { change (seqZ 1001 50) with (seqZ (1000 + 1) 50). rewrite <- fmap_add_seqZ.
    symmetry. apply list_eq_Forall2. unfold product_ids.
    apply Forall2_fmap. eapply Forall2_impl; [exact Hids |].
    intros i p Hp. symmetry. apply (pr_id _ _ Hp). }
  split; [done |]. split; [rewrite Heq; apply NoDup_seqZ |].
  apply Forall2_length in Hids. rewrite length_seqZ in Hids. lia.
Qed.

(** X8.  Every household row takes each of its seven attributes from the list
    the script draws it from. *)
Theorem household_attributes_in_lists :
  ensures demo_data_gen (λ g, Forall household_domains (demo_df g)).
Proof.
  eapply ensures_weaken; [apply (demo_data_gen_domains HR HF) |].
  by intros g (Hh & _ & _).
Qed.

(** X9.  Every product row has a manufacturer from 1 to 99, one of the six
    departments, the brand National or Private, and as size a number from
    5 to 49 followed by OZ. *)
Theorem product_attributes_in_ranges :
  ensures demo_data_gen (λ g, Forall product_domains (product_df g)).
Proof.
  eapply ensures_weaken; [apply (demo_data_gen_domains HR HF) |].
  by intros g (_ & Hp & _).
Qed.

(** X10.  Every transaction has store id 300, 400 or 500, a transaction time
    from 800 to 2199 and a week number from 1 to 53. *)
Theorem transaction_attributes_in_ranges : ensures demo_data_gen transaction_ranges.
Proof.
  eapply ensures_weaken; [apply demo_data_gen_facts |].
  intros g [Hg (_ & _ & Ht)]. unfold transaction_ranges.
  apply Forall_lookup. intros n t Hn.
  pose proof (Forall_lookup_1 _ _ _ _ Ht Hn) as Hdom.
  destruct (transaction_at g n t Hg Hn) as (l & Hit).
  split; [apply (td_store _ Hdom) |]. split; [apply (td_time _ Hdom) |].
  rewrite (it_week_no _ _ _ _ _ Hit).
  pose proof (it_days_offset _ _ _ _ _ Hit).
  Z.to_euclidean_division_equations; lia.
Qed.

(** X11.  The retail discount of every transaction is zero or round(sales value
    * 0.1, 2); it is never negative and never more than the sales value. *)
Theorem discount_at_most_sales_value : ensures demo_data_gen discount_rule.
Proof.
  eapply ensures_weaken; [apply demo_data_gen_facts |].
  intros g [Hg (_ & _ & Ht)]. unfold discount_rule.
  apply Forall_lookup. intros n t Hn.
  pose proof (Forall_lookup_1 _ _ _ _ Ht Hn) as Hdom.
  destruct (transaction_at g n t Hg Hn) as (l & Hit).
  destruct (it_unit_price _ _ _ _ _ Hit) as (drawn & Hprice).
  destruct (unit_price_between HF l drawn Hprice) as [Hp1 Hp15].
  destruct (it_quantity_parts _ _ _ _ _ Hit)
    as (base & extra & bonus & Hqty & Hbase & Hextra & Hbonus & _).
  assert (1 ≤ qty l ≤ 5) as Hq by (destruct (decide _); lia).
  destruct (sales_value_between HF (base_price l) (qty l) Hp1 Hp15 Hq) as [Hlo Hhi].
  rewrite <- (it_sales_value _ _ _ _ _ Hit), <- (it_sales_value_row _ _ _ _ _ Hit)
    in Hlo, Hhi.
  assert (1 <= Transaction.SALES_VALUE t)%Q as H1.
  { apply Qle_trans with (y := inject_Z (qty l)); [| done].
    change 1%Q with (inject_Z 1). rewrite <- Zle_Qle. lia. }
  assert (Transaction.SALES_VALUE t <= 75)%Q as H75.
  { apply Qle_trans with (y := inject_Z (15 * qty l)); [done |].
    change 75%Q with (inject_Z 75). rewrite <- Zle_Qle. lia. }
  split; [apply (td_discount _ Hdom) |].
  destruct (td_discount _ Hdom) as [-> | ->].
  - unfold float_of_int. rewrite (fl_integer HF 0) by lia.
    change (inject_Z 0) with 0%Q. split; lra.
  - by apply discount_between.
Qed.

(** X12.  Every transaction date is a day of 2021: the start date plus the day
    offset, written as 2021-MM-DD in the row. *)
Theorem transaction_dates_in_2021 : ensures demo_data_gen dates_in_2021.
Proof.
  eapply ensures_weaken; [apply (demo_data_gen_ok HR HF) |].
  intros g Hg. apply Forall_forall. intros [l t] Hlt.
  destruct (generated_row g (l, t) Hg Hlt) as (i & _ & Hit). cbn [fst snd] in *.
  rewrite (it_day _ _ _ _ _ Hit), (it_trans_date _ _ _ _ _ Hit).
  apply calendar_at, (it_days_offset _ _ _ _ _ Hit).
Qed.

(** X13.  The weekend flag of an iteration is set exactly on the Saturdays and
    Sundays of 2021, the days whose offset from 1 January leaves remainder
    1 or 2 by 7. *)
Theorem weekend_is_saturday_or_sunday : ensures demo_data_gen weekend_rule.
Proof.
  eapply ensures_weaken; [apply (demo_data_gen_ok HR HF) |].
  intros g Hg. apply Forall_forall. intros [l t] Hlt.
  destruct (generated_row g (l, t) Hg Hlt) as (i & _ & Hit). cbn [fst snd] in *.
  pose proof (it_days_offset _ _ _ _ _ Hit) as Ho.
  destruct (calendar_at (days_offset l) Ho) as [_ Hweekday].
  rewrite <- (it_trans_date _ _ _ _ _ Hit) in Hweekday.
  split; [done |]. rewrite (it_is_weekend _ _ _ _ _ Hit), bool_decide_eq_true, Hweekday.
  Z.to_euclidean_division_equations; lia.
Qed.

(** X14.  The price multiplier applies exactly to the households of income
    bracket 100-124K or 250K+ (not to 150-174K): their unit price lies in
    [1.5, 15], the unit price of all others in [1, 10). *)
Theorem multiplier_for_two_brackets : ensures demo_data_gen income_rule.
Proof.
  eapply ensures_weaken; [apply demo_data_gen_facts |].
  intros g [Hg (Hh & _ & _)]. apply Forall_forall. intros [l t] Hlt.
  destruct (generated_row g (l, t) Hg Hlt) as (i & _ & Hit). cbn [fst snd] in *.
  pose proof (proj1 (Forall_forall _ _) Hh _ (it_household _ _ _ _ _ Hit)) as Hdom.
  destruct (it_unit_price _ _ _ _ _ Hit) as (drawn & Hprice).
  split; [apply high_income_brackets, (hd_income _ Hdom) |].
  by apply (unit_price_by_income HF l drawn).
Qed.

End GeneratorExtras.

Section OutputFacts.
Import Generator.
Context {R : Random} {F : Float}.
Context {CsvH : Csv household} {CsvP : Csv Product.t} {CsvT : Csv Transaction.t}.


End OutputFacts.

(** *** The further properties on the sample libraries *)

Section GeneratorExtraRuns.
Import Generator.

Lemma household_keys_1_to_100_witness :
  random_contract Sample.lcg ∧ float_contract Sample.exact
  ∧ ensures Sample.demo_data_gen (keys_in_order).
Proof.
  split; [exact lcg_contract |]. split; [exact exact_contract |].
  exact (household_keys_1_to_100 (CsvH := Sample.csv_lines household_key)
           (CsvP := Sample.csv_lines Product.PRODUCT_ID)
           (CsvT := Sample.csv_lines Transaction.BASKET_ID)
           lcg_contract exact_contract).
Defined.

Lemma product_ids_1001_to_1050_witness :
  random_contract Sample.lcg ∧ float_contract Sample.exact
  ∧ ensures Sample.demo_data_gen (ids_in_order).
Proof.
  split; [exact lcg_contract |]. split; [exact exact_contract |].
  exact (product_ids_1001_to_1050 (CsvH := Sample.csv_lines household_key)
           (CsvP := Sample.csv_lines Product.PRODUCT_ID)
           (CsvT := Sample.csv_lines Transaction.BASKET_ID)
           lcg_contract exact_contract).
Defined.

Lemma household_attributes_in_lists_witness :
  random_contract Sample.lcg ∧ float_contract Sample.exact
  ∧ ensures Sample.demo_data_gen (λ g, Forall household_domains (demo_df g)).
Proof.
  split; [exact lcg_contract |]. split; [exact exact_contract |].
  exact (household_attributes_in_lists (CsvH := Sample.csv_lines household_key)
           (CsvP := Sample.csv_lines Product.PRODUCT_ID)
           (CsvT := Sample.csv_lines Transaction.BASKET_ID)
           lcg_contract exact_contract).
Defined.

Lemma product_attributes_in_ranges_witness :
  random_contract Sample.lcg ∧ float_contract Sample.exact
  ∧ ensures Sample.demo_data_gen (λ g, Forall product_domains (product_df g)).
Proof.
  split; [exact lcg_contract |]. split; [exact exact_contract |].
  exact (product_attributes_in_ranges (CsvH := Sample.csv_lines household_key)
           (CsvP := Sample.csv_lines Product.PRODUCT_ID)
           (CsvT := Sample.csv_lines Transaction.BASKET_ID)
           lcg_contract exact_contract).
Defined.

Lemma transaction_attributes_in_ranges_witness :
  random_contract Sample.lcg ∧ float_contract Sample.exact
  ∧ ensures Sample.demo_data_gen (transaction_ranges).
Proof.
  split; [exact lcg_contract |]. split; [exact exact_contract |].
  exact (transaction_attributes_in_ranges (CsvH := Sample.csv_lines household_key)
           (CsvP := Sample.csv_lines Product.PRODUCT_ID)
           (CsvT := Sample.csv_lines Transaction.BASKET_ID)
           lcg_contract exact_contract).
Defined.

Lemma discount_at_most_sales_value_witness :
  random_contract Sample.lcg ∧ float_contract Sample.exact
  ∧ ensures Sample.demo_data_gen (discount_rule (F := Sample.exact)).
Proof.
  split; [exact lcg_contract |]. split; [exact exact_contract |].
  exact (discount_at_most_sales_value (CsvH := Sample.csv_lines household_key)
           (CsvP := Sample.csv_lines Product.PRODUCT_ID)
           (CsvT := Sample.csv_lines Transaction.BASKET_ID)
           lcg_contract exact_contract).
Defined.

Lemma transaction_dates_in_2021_witness :
  random_contract Sample.lcg ∧ float_contract Sample.exact
  ∧ ensures Sample.demo_data_gen (dates_in_2021).
Proof.
  split; [exact lcg_contract |]. split; [exact exact_contract |].
  exact (transaction_dates_in_2021 (CsvH := Sample.csv_lines household_key)
           (CsvP := Sample.csv_lines Product.PRODUCT_ID)
           (CsvT := Sample.csv_lines Transaction.BASKET_ID)
           lcg_contract exact_contract).
Defined.

Lemma weekend_is_saturday_or_sunday_witness :
  random_contract Sample.lcg ∧ float_contract Sample.exact
  ∧ ensures Sample.demo_data_gen (weekend_rule).
Proof.
  split; [exact lcg_contract |]. split; [exact exact_contract |].
  exact (weekend_is_saturday_or_sunday (CsvH := Sample.csv_lines household_key)
           (CsvP := Sample.csv_lines Product.PRODUCT_ID)
           (CsvT := Sample.csv_lines Transaction.BASKET_ID)
           lcg_contract exact_contract).
Defined.

Lemma multiplier_for_two_brackets_witness :
  random_contract Sample.lcg ∧ float_contract Sample.exact
  ∧ ensures Sample.demo_data_gen (income_rule).
Proof.
  split; [exact lcg_contract |]. split; [exact exact_contract |].
  exact (multiplier_for_two_brackets (CsvH := Sample.csv_lines household_key)
           (CsvP := Sample.csv_lines Product.PRODUCT_ID)
           (CsvT := Sample.csv_lines Transaction.BASKET_ID)
           lcg_contract exact_contract).
Defined.

End GeneratorExtraRuns.
